(** * AODVv2 packet writer (src/sys/aodvv2/writer.c)

    A shallow embedding of the RREQ/RREP writer: the statics of the
    translation unit, the callbacks it hands to the RFC 5444 encoding
    engine, [aodvv2_packet_writer_init] and the two send operations.

    The RFC 5444 encoding engine, the mutex primitive and the
    transport are collaborators outside the unit; they are modelled by the
    calls the unit makes on them.  The sequence-number store (seqnum.h) is
    modelled from the specification. *)

From stdpp Require Import base numbers option list.

Open Scope Z_scope.

(** ** Constants and types taken from headers

    [struct netaddr] and the three constants are declared in headers that
    the unit includes; the unit copies addresses and passes the constants
    on, so they are parameters of the development. *)
Class Platform := {
  netaddr : Type;
  RFC5444_MAX_ADDRLEN : Z;
  AODVV2_DEFAULT_METRIC_TYPE : Z;
  AODVV2_MAX_HOPCOUNT : Z;
}.

(** Message kinds and address-TLV kinds named by the unit. *)
Inductive rfc5444_msgtype := RFC5444_MSGTYPE_RREQ | RFC5444_MSGTYPE_RREP.

Inductive rfc5444_msgtlv :=
  | RFC5444_MSGTLV_ORIGSEQNUM
  | RFC5444_MSGTLV_TARGSEQNUM
  | RFC5444_MSGTLV_METRIC.

Definition msgtype_eqb (a b : rfc5444_msgtype) : bool :=
  match a, b with
  | RFC5444_MSGTYPE_RREQ, RFC5444_MSGTYPE_RREQ => true
  | RFC5444_MSGTYPE_RREP, RFC5444_MSGTYPE_RREP => true
  | _, _ => false
  end.

(** [struct rfc5444_writer_tlvtype]: the fields the unit initialises; a
    field without initialiser is zero. *)
Record rfc5444_writer_tlvtype := {
  tlv_type : rfc5444_msgtlv;
  tlv_exttype : Z;
}.

(** Width of the integer types whose objects are handed to the engine. *)
Definition sizeof_uint16_t : Z := 2.
Definition sizeof_uint8_t : Z := 1.

(** 16-bit and 8-bit stores. *)
Definition to_uint16 (x : Z) : Z := x mod 2 ^ 16.
Definition to_uint8 (x : Z) : Z := x mod 2 ^ 8.

(** Function symbols of the unit that are used as callbacks.  The header
    callback exists under two names: the prototype at the top of the file
    and the function that is defined further down. *)
Inductive header_fn :=
  | fn_cb_add_message_header   (* prototype, writer.c:31; bound in init *)
  | fn_cb_addMessageHeader.    (* definition, writer.c:93 *)

Inductive addresses_fn :=
  | fn_cb_rreq_add_addresses
  | fn_cb_rrep_add_addresses.

(** Static buffers of the unit, with their sizes. *)
Inductive buffer_ref := ref_msg_buffer | ref_msg_addrtlvs | ref_packet_buffer.

Definition sizeof_buffer (b : buffer_ref) : Z :=
  match b with
  | ref_msg_buffer => 128
  | ref_msg_addrtlvs => 1000
  | ref_packet_buffer => 128
  end.

(** Static objects of the unit the engine keeps pointers to. *)
Inductive target_ref := ref_target_interface.
Inductive provider_ref := ref_rreq_provider | ref_rrep_provider.
Inductive tlvtable_ref := ref_rreq_addrtlvs | ref_rrep_addrtlvs.

Inductive mutex_t := MUTEX_UNLOCKED | MUTEX_LOCKED.

(** A C pointer into caller memory: NULL or the index of a cell. *)
Definition ptr := option nat.

(** ** Calls: state and failure

    A call runs on the world and either returns, aborts the process (a
    failed [assert]), blocks for ever (a lock that is never released) or
    faults (an access through an invalid pointer). *)
Inductive outcome (A : Type) :=
  | Returns (a : A)
  | Aborts
  | Blocks
  | Faults.
Arguments Returns {A} a.
Arguments Aborts {A}.
Arguments Blocks {A}.
Arguments Faults {A}.

Section Writer.
Context `{Platform}.

(** ** Data model *)

(** [struct node_data] and [aodvv2_packet_data_t], with the fields the
    unit reads: a 16-bit sequence number, an 8-bit metric, an 8-bit hop
    limit. *)
Record node_data := {
  addr : netaddr;
  seqnum : Z;
  metric : Z;
}.

Record aodvv2_packet_data_t := {
  hoplimit : Z;
  origNode : node_data;
  targNode : node_data;
}.

(** What the engine holds for one address of the message under
    construction. *)
Record rfc5444_writer_addrtlv := {
  atlv_tlvtype : rfc5444_writer_tlvtype;
  atlv_value : Z;
  atlv_length : Z;
  atlv_allow_dup : bool;
}.

Record rfc5444_writer_address := {
  address : netaddr;
  mandatory : bool;
  addr_tlvs : list rfc5444_writer_addrtlv;
}.

(** Header flags in the order of [rfc5444_writer_set_msg_header]. *)
Record msg_header := {
  has_originator : bool;
  has_hopcount : bool;
  has_hoplimit : bool;
  has_seqno : bool;
}.

(** A pointer to a message registered in the engine (messages are keyed by
    their type) and a pointer to an address of its working area. *)
Definition msg_ptr := rfc5444_msgtype.
Definition addr_ptr := (msg_ptr * nat)%type.

Record rfc5444_writer_message := {
  msg_type : rfc5444_msgtype;
  msg_if_specific : bool;
  msg_addr_len : Z;
  addMessageHeader : option header_fn;
  (* working area of the message under construction *)
  msg_hdr : option msg_header;
  msg_hoplimit : option Z;
  msg_addrs : list rfc5444_writer_address;
}.

(** A finished message as it is placed into a target's packet buffer. *)
Record wire_message := {
  wm_type : rfc5444_msgtype;
  wm_hdr : option msg_header;
  wm_hoplimit : option Z;
  wm_addrs : list rfc5444_writer_address;
}.

(** Modelled from the spec: [write_packet_func_ptr] is declared in
    writer.h.  The sender is given the buffered bytes and the destination
    address, attempts to transmit and signals success ([true]) or
    failure ([false]). *)
Definition write_packet_func_ptr := list wire_message -> netaddr -> bool.

Record rfc5444_writer_target := {
  packet_buffer : option buffer_ref;
  packet_size : Z;
  sendPacket : option write_packet_func_ptr;
  (* engine-owned: messages in the packet buffer, not yet flushed *)
  pkt_messages : list wire_message;
}.

Record rfc5444_writer_content_provider := {
  cp_msg_type : rfc5444_msgtype;
  addAddresses : option addresses_fn;
  creator : option msg_ptr;
}.

Record rfc5444_writer := {
  msg_buffer : option buffer_ref;
  msg_size : Z;
  addrtlv_buffer : option buffer_ref;
  addrtlv_size : Z;
  (* engine-owned registrations *)
  wr_targets : list target_ref;
  wr_providers : list (provider_ref * tlvtable_ref);
  wr_messages : list rfc5444_writer_message;
}.

Record aodvv2_writer_target_t := {
  interface : rfc5444_writer_target;
  packet_data : aodvv2_packet_data_t;
  type : option rfc5444_msgtype;
  target_addr : netaddr;
}.

(** One call of the transport sender, as the outside observes it. *)
Record transmission := {
  tx_messages : list wire_message;
  tx_dest : netaddr;
  tx_ok : bool;
}.

(** The state the unit runs in: caller memory, the statics of writer.c,
    the sequence-number store and the log of transport calls. *)
Record world := {
  mem_packet_data : list aodvv2_packet_data_t;
  mem_netaddr : list netaddr;
  writer_mutex : mutex_t;
  writer : rfc5444_writer;
  _target : aodvv2_writer_target_t;
  _rreq_msg : option msg_ptr;
  _rrep_msg : option msg_ptr;
  _rreq_message_content_provider : rfc5444_writer_content_provider;
  _rrep_message_content_provider : rfc5444_writer_content_provider;
  SequenceNumberCounter : Z;
  wire : list transmission;
}.

(** *** Field updates *)

Definition set_writer_mutex (m : mutex_t) (w : world) : world :=
  {| mem_packet_data := mem_packet_data w; mem_netaddr := mem_netaddr w;
     writer_mutex := m; writer := writer w; _target := _target w;
     _rreq_msg := _rreq_msg w; _rrep_msg := _rrep_msg w;
     _rreq_message_content_provider := _rreq_message_content_provider w;
     _rrep_message_content_provider := _rrep_message_content_provider w;
     SequenceNumberCounter := SequenceNumberCounter w; wire := wire w |}.

Definition set_writer (wr : rfc5444_writer) (w : world) : world :=
  {| mem_packet_data := mem_packet_data w; mem_netaddr := mem_netaddr w;
     writer_mutex := writer_mutex w; writer := wr; _target := _target w;
     _rreq_msg := _rreq_msg w; _rrep_msg := _rrep_msg w;
     _rreq_message_content_provider := _rreq_message_content_provider w;
     _rrep_message_content_provider := _rrep_message_content_provider w;
     SequenceNumberCounter := SequenceNumberCounter w; wire := wire w |}.

Definition set_target (t : aodvv2_writer_target_t) (w : world) : world :=
  {| mem_packet_data := mem_packet_data w; mem_netaddr := mem_netaddr w;
     writer_mutex := writer_mutex w; writer := writer w; _target := t;
     _rreq_msg := _rreq_msg w; _rrep_msg := _rrep_msg w;
     _rreq_message_content_provider := _rreq_message_content_provider w;
     _rrep_message_content_provider := _rrep_message_content_provider w;
     SequenceNumberCounter := SequenceNumberCounter w; wire := wire w |}.

Definition set_rreq_msg (p : option msg_ptr) (w : world) : world :=
  {| mem_packet_data := mem_packet_data w; mem_netaddr := mem_netaddr w;
     writer_mutex := writer_mutex w; writer := writer w; _target := _target w;
     _rreq_msg := p; _rrep_msg := _rrep_msg w;
     _rreq_message_content_provider := _rreq_message_content_provider w;
     _rrep_message_content_provider := _rrep_message_content_provider w;
     SequenceNumberCounter := SequenceNumberCounter w; wire := wire w |}.

Definition set_rrep_msg (p : option msg_ptr) (w : world) : world :=
  {| mem_packet_data := mem_packet_data w; mem_netaddr := mem_netaddr w;
     writer_mutex := writer_mutex w; writer := writer w; _target := _target w;
     _rreq_msg := _rreq_msg w; _rrep_msg := p;
     _rreq_message_content_provider := _rreq_message_content_provider w;
     _rrep_message_content_provider := _rrep_message_content_provider w;
     SequenceNumberCounter := SequenceNumberCounter w; wire := wire w |}.

Definition set_provider (r : provider_ref)
    (p : rfc5444_writer_content_provider) (w : world) : world :=
  {| mem_packet_data := mem_packet_data w; mem_netaddr := mem_netaddr w;
     writer_mutex := writer_mutex w; writer := writer w; _target := _target w;
     _rreq_msg := _rreq_msg w; _rrep_msg := _rrep_msg w;
     _rreq_message_content_provider :=
       match r with
       | ref_rreq_provider => p
       | ref_rrep_provider => _rreq_message_content_provider w
       end;
     _rrep_message_content_provider :=
       match r with
       | ref_rreq_provider => _rrep_message_content_provider w
       | ref_rrep_provider => p
       end;
     SequenceNumberCounter := SequenceNumberCounter w; wire := wire w |}.

Definition set_SequenceNumberCounter (s : Z) (w : world) : world :=
  {| mem_packet_data := mem_packet_data w; mem_netaddr := mem_netaddr w;
     writer_mutex := writer_mutex w; writer := writer w; _target := _target w;
     _rreq_msg := _rreq_msg w; _rrep_msg := _rrep_msg w;
     _rreq_message_content_provider := _rreq_message_content_provider w;
     _rrep_message_content_provider := _rrep_message_content_provider w;
     SequenceNumberCounter := s; wire := wire w |}.

Definition set_wire (l : list transmission) (w : world) : world :=
  {| mem_packet_data := mem_packet_data w; mem_netaddr := mem_netaddr w;
     writer_mutex := writer_mutex w; writer := writer w; _target := _target w;
     _rreq_msg := _rreq_msg w; _rrep_msg := _rrep_msg w;
     _rreq_message_content_provider := _rreq_message_content_provider w;
     _rrep_message_content_provider := _rrep_message_content_provider w;
     SequenceNumberCounter := SequenceNumberCounter w; wire := l |}.

Definition get_provider (r : provider_ref) (w : world)
    : rfc5444_writer_content_provider :=
  match r with
  | ref_rreq_provider => _rreq_message_content_provider w
  | ref_rrep_provider => _rrep_message_content_provider w
  end.

Definition set_interface (i : rfc5444_writer_target)
    (t : aodvv2_writer_target_t) : aodvv2_writer_target_t :=
  {| interface := i; packet_data := packet_data t; type := type t;
     target_addr := target_addr t |}.

Definition set_packet_data (d : aodvv2_packet_data_t)
    (t : aodvv2_writer_target_t) : aodvv2_writer_target_t :=
  {| interface := interface t; packet_data := d; type := type t;
     target_addr := target_addr t |}.

Definition set_type (k : option rfc5444_msgtype)
    (t : aodvv2_writer_target_t) : aodvv2_writer_target_t :=
  {| interface := interface t; packet_data := packet_data t; type := k;
     target_addr := target_addr t |}.

Definition set_target_addr (a : netaddr)
    (t : aodvv2_writer_target_t) : aodvv2_writer_target_t :=
  {| interface := interface t; packet_data := packet_data t; type := type t;
     target_addr := a |}.

Definition set_hoplimit (h : Z) (d : aodvv2_packet_data_t)
    : aodvv2_packet_data_t :=
  {| hoplimit := h; origNode := origNode d; targNode := targNode d |}.

Definition set_pkt_messages (l : list wire_message)
    (i : rfc5444_writer_target) : rfc5444_writer_target :=
  {| packet_buffer := packet_buffer i; packet_size := packet_size i;
     sendPacket := sendPacket i; pkt_messages := l |}.

Definition set_wr_messages (l : list rfc5444_writer_message)
    (wr : rfc5444_writer) : rfc5444_writer :=
  {| msg_buffer := msg_buffer wr; msg_size := msg_size wr;
     addrtlv_buffer := addrtlv_buffer wr; addrtlv_size := addrtlv_size wr;
     wr_targets := wr_targets wr; wr_providers := wr_providers wr;
     wr_messages := l |}.

Definition set_working (h : option msg_header) (l : option Z)
    (a : list rfc5444_writer_address) (m : rfc5444_writer_message)
    : rfc5444_writer_message :=
  {| msg_type := msg_type m; msg_if_specific := msg_if_specific m;
     msg_addr_len := msg_addr_len m; addMessageHeader := addMessageHeader m;
     msg_hdr := h; msg_hoplimit := l; msg_addrs := a |}.

Definition set_addMessageHeader (f : option header_fn)
    (m : rfc5444_writer_message) : rfc5444_writer_message :=
  {| msg_type := msg_type m; msg_if_specific := msg_if_specific m;
     msg_addr_len := msg_addr_len m; addMessageHeader := f;
     msg_hdr := msg_hdr m; msg_hoplimit := msg_hoplimit m;
     msg_addrs := msg_addrs m |}.

Definition add_tlv (t : rfc5444_writer_addrtlv) (a : rfc5444_writer_address)
    : rfc5444_writer_address :=
  {| address := address a; mandatory := mandatory a;
     addr_tlvs := addr_tlvs a ++ [t] |}.

(** ** The call monad *)

Definition M (A : Type) : Type := world -> outcome (A * world).

#[global] Instance M_ret : MRet M := fun A a w => Returns (a, w).

#[global] Instance M_bind : MBind M := fun A B f m w =>
  match m w with
  | Returns (a, w') => f a w'
  | Aborts => Aborts
  | Blocks => Blocks
  | Faults => Faults
  end.

Definition get : M world := fun w => Returns (w, w).
Definition modify (f : world -> world) : M unit := fun w => Returns (tt, f w).
Definition abort {A} : M A := fun _ => Aborts.
Definition block {A} : M A := fun _ => Blocks.
Definition fault {A} : M A := fun _ => Faults.

Definition assert (b : bool) : M unit := if b then mret tt else abort.

(** Reading a caller object through a pointer. *)
Definition load {A} (cells : world -> list A) (p : ptr) : M A := fun w =>
  match p with
  | None => Faults
  | Some i => match cells w !! i with
              | Some v => Returns (v, w)
              | None => Faults
              end
  end.

Definition not_null (p : ptr) : bool :=
  match p with Some _ => true | None => false end.

(** ** Mutex *)

(** Modelled from the spec: the mutual-exclusion primitive comes from the
    platform (mutex.h).  Acquiring a free mutex takes it; acquiring a held
    mutex blocks the caller until it is released, without timeout. *)
Definition mutex_init : M unit := modify (set_writer_mutex MUTEX_UNLOCKED).

Definition mutex_lock : M unit := fun w =>
  match writer_mutex w with
  | MUTEX_UNLOCKED => Returns (tt, set_writer_mutex MUTEX_LOCKED w)
  | MUTEX_LOCKED => Blocks
  end.

Definition mutex_unlock : M unit := modify (set_writer_mutex MUTEX_UNLOCKED).

(** ** Sequence-number store *)

(** Modelled from the spec: seqnum.c is not part of the sources.  The
    counter is 16 bits wide; incrementing advances to the next value and
    wraps past the maximum back to 1, never to the reserved value 0. *)
Definition seqnum_next (s : Z) : Z :=
  let n := to_uint16 (s + 1) in
  if n =? 0 then 1 else n.

(** Modelled from the spec: [get] returns the current value without side
    effects. *)
Definition aodvv2_seqnum_get : M Z :=
  w ← get; mret (SequenceNumberCounter w).

(** Modelled from the spec: [increment] of the Sequence Number Store. *)
Definition aodvv2_seqnum_inc : M unit :=
  modify (fun w => set_SequenceNumberCounter
                     (seqnum_next (SequenceNumberCounter w)) w).

(** ** The RFC 5444 encoding engine

    Modelled from the spec: the engine is an external collaborator whose
    sources are not part of the unit.  The model keeps what the unit
    registers with it and what the callbacks put into the message under
    construction, in the order of the calls; framing and byte layout are
    the engine's business and are not modelled.  The [wr] argument of every
    call is [&writer], the one writer of the unit, and is left implicit. *)

Definition read {A} (f : world -> A) : M A := w ← get; mret (f w).

Definition for_each {A} (l : list A) (f : A -> M unit) : M unit :=
  foldr (fun a k => f a;; k) (mret tt) l.

Definition find_message (t : msg_ptr) (wr : rfc5444_writer)
    : option rfc5444_writer_message :=
  find (fun m => msgtype_eqb (msg_type m) t) (wr_messages wr).

Definition update_message (t : msg_ptr)
    (f : rfc5444_writer_message -> rfc5444_writer_message)
    (wr : rfc5444_writer) : rfc5444_writer :=
  set_wr_messages
    (map (fun m => if msgtype_eqb (msg_type m) t then f m else m)
         (wr_messages wr)) wr.

Definition new_message (t : rfc5444_msgtype) : rfc5444_writer_message :=
  {| msg_type := t; msg_if_specific := false; msg_addr_len := 0;
     addMessageHeader := None;
     msg_hdr := None; msg_hoplimit := None; msg_addrs := [] |}.

(** The message registered for a type, created on first use. *)
Definition ensure_message (t : rfc5444_msgtype) (wr : rfc5444_writer)
    : rfc5444_writer :=
  match find_message t wr with
  | Some _ => wr
  | None => set_wr_messages (wr_messages wr ++ [new_message t]) wr
  end.

(** A dereference of a message pointer inside the engine. *)
Definition deref_message (msg : option msg_ptr)
    : M (msg_ptr * rfc5444_writer_message) := fun w =>
  match msg with
  | None => Faults
  | Some t => match find_message t (writer w) with
              | Some m => Returns ((t, m), w)
              | None => Faults
              end
  end.

Definition modify_message (t : msg_ptr)
    (f : rfc5444_writer_message -> rfc5444_writer_message) : M unit :=
  modify (fun w => set_writer (update_message t f (writer w)) w).

(** Modelled from the spec: initialises an encoder instance on the buffers
    the caller has bound; no target, provider or message is registered. *)
Definition rfc5444_writer_init : M unit :=
  modify (fun w => set_writer
    {| msg_buffer := msg_buffer (writer w); msg_size := msg_size (writer w);
       addrtlv_buffer := addrtlv_buffer (writer w);
       addrtlv_size := addrtlv_size (writer w);
       wr_targets := []; wr_providers := []; wr_messages := [] |} w).

(** Modelled from the spec: registers a transmission target bound to a
    packet buffer and a sender; its packet buffer starts empty. *)
Definition rfc5444_writer_register_target (r : target_ref) : M unit :=
  modify (fun w => set_writer
    {| msg_buffer := msg_buffer (writer w); msg_size := msg_size (writer w);
       addrtlv_buffer := addrtlv_buffer (writer w);
       addrtlv_size := addrtlv_size (writer w);
       wr_targets := wr_targets (writer w) ++ [r];
       wr_providers := wr_providers (writer w);
       wr_messages := wr_messages (writer w) |} w);;
  modify (fun w => set_target
    (set_interface (set_pkt_messages [] (interface (_target w))) (_target w))
    w).

(** Modelled from the spec: registers a content provider with its table of
    address TLV types and stores the message it belongs to in the
    provider's [creator]. *)
Definition rfc5444_writer_register_msgcontentprovider
    (p : provider_ref) (addrtlvs : tlvtable_ref) : M unit :=
  t ← read (fun w => cp_msg_type (get_provider p w));
  modify (fun w => set_writer (ensure_message t (writer w)) w);;
  modify (fun w => set_writer
    {| msg_buffer := msg_buffer (writer w); msg_size := msg_size (writer w);
       addrtlv_buffer := addrtlv_buffer (writer w);
       addrtlv_size := addrtlv_size (writer w);
       wr_targets := wr_targets (writer w);
       wr_providers := wr_providers (writer w) ++ [(p, addrtlvs)];
       wr_messages := wr_messages (writer w) |} w);;
  modify (fun w => set_provider p
    {| cp_msg_type := cp_msg_type (get_provider p w);
       addAddresses := addAddresses (get_provider p w);
       creator := Some t |} w).

(** Modelled from the spec: registers a message kind with its address
    length and returns a pointer to its record. *)
Definition rfc5444_writer_register_message (msgid : rfc5444_msgtype)
    (if_specific : bool) (addr_len : Z) : M (option msg_ptr) :=
  modify (fun w => set_writer (ensure_message msgid (writer w)) w);;
  modify_message msgid (fun m =>
    {| msg_type := msg_type m; msg_if_specific := if_specific;
       msg_addr_len := addr_len; addMessageHeader := addMessageHeader m;
       msg_hdr := msg_hdr m; msg_hoplimit := msg_hoplimit m;
       msg_addrs := msg_addrs m |});;
  mret (Some msgid).

(** Modelled from the spec: sets the field-presence flags of the header of
    the message under construction. *)
Definition rfc5444_writer_set_msg_header (msg : option msg_ptr)
    (has_originator has_hopcount has_hoplimit has_seqno : bool) : M unit :=
  '(t, _) ← deref_message msg;
  modify_message t (fun m =>
    set_working
      (Some {| has_originator := has_originator;
               has_hopcount := has_hopcount;
               has_hoplimit := has_hoplimit;
               has_seqno := has_seqno |})
      (msg_hoplimit m) (msg_addrs m) m).

(** Modelled from the spec: sets the hop-limit value of the header. *)
Definition rfc5444_writer_set_msg_hoplimit (msg : option msg_ptr)
    (hoplimit : Z) : M unit :=
  '(t, _) ← deref_message msg;
  modify_message t (fun m =>
    set_working (msg_hdr m) (Some hoplimit) (msg_addrs m) m).

(** Modelled from the spec: appends an address to the message, marked
    mandatory or not, and returns a pointer to it. *)
Definition rfc5444_writer_add_address (msg : option msg_ptr)
    (a : netaddr) (mandatory : bool) : M addr_ptr :=
  '(t, m) ← deref_message msg;
  modify_message t (fun m =>
    set_working (msg_hdr m) (msg_hoplimit m)
      (msg_addrs m ++
         [{| address := a; mandatory := mandatory; addr_tlvs := [] |}]) m);;
  mret (t, length (msg_addrs m)).

(** Modelled from the spec: attaches a TLV of [length] bytes holding
    [value] to an address of the message. *)
Definition rfc5444_writer_add_addrtlv (a : addr_ptr)
    (tlvtype : option rfc5444_writer_tlvtype) (value : Z) (length : Z)
    (allow_dup : bool) : M unit :=
  '(t, m) ← deref_message (Some (fst a));
  match tlvtype, msg_addrs m !! snd a with
  | Some ty, Some _ =>
      modify_message t (fun m =>
        set_working (msg_hdr m) (msg_hoplimit m)
          (alter (add_tlv {| atlv_tlvtype := ty; atlv_value := value;
                             atlv_length := length;
                             atlv_allow_dup := allow_dup |})
                 (snd a) (msg_addrs m)) m)
  | _, _ => fault
  end.

(** ** Statics of the unit with initialisers *)

Definition rreq_provider_initializer : rfc5444_writer_content_provider :=
  {| cp_msg_type := RFC5444_MSGTYPE_RREQ;
     addAddresses := Some fn_cb_rreq_add_addresses;
     creator := None |}.

Definition _rreq_addrtlvs (i : rfc5444_msgtlv)
    : option rfc5444_writer_tlvtype :=
  match i with
  | RFC5444_MSGTLV_ORIGSEQNUM =>
      Some {| tlv_type := RFC5444_MSGTLV_ORIGSEQNUM; tlv_exttype := 0 |}
  | RFC5444_MSGTLV_METRIC =>
      Some {| tlv_type := RFC5444_MSGTLV_METRIC;
              tlv_exttype := AODVV2_DEFAULT_METRIC_TYPE |}
  | RFC5444_MSGTLV_TARGSEQNUM => None
  end.

Definition rrep_provider_initializer : rfc5444_writer_content_provider :=
  {| cp_msg_type := RFC5444_MSGTYPE_RREP;
     addAddresses := Some fn_cb_rrep_add_addresses;
     creator := None |}.

Definition _rrep_addrtlvs (i : rfc5444_msgtlv)
    : option rfc5444_writer_tlvtype :=
  match i with
  | RFC5444_MSGTLV_ORIGSEQNUM =>
      Some {| tlv_type := RFC5444_MSGTLV_ORIGSEQNUM; tlv_exttype := 0 |}
  | RFC5444_MSGTLV_TARGSEQNUM =>
      Some {| tlv_type := RFC5444_MSGTLV_TARGSEQNUM; tlv_exttype := 0 |}
  | RFC5444_MSGTLV_METRIC =>
      Some {| tlv_type := RFC5444_MSGTLV_METRIC;
              tlv_exttype := AODVV2_DEFAULT_METRIC_TYPE |}
  end.

(** ** Callbacks *)

(** writer.c:93 *)
Definition _cb_addMessageHeader (message : option msg_ptr) : M unit :=
  (* no originator, no hopcount, has hoplimit, no seqno *)
  rfc5444_writer_set_msg_header message false false true false;;
  h ← read (fun w => hoplimit (packet_data (_target w)));
  rfc5444_writer_set_msg_hoplimit message h.

(** writer.c:104 *)
Definition _cb_rreq_add_addresses : M unit :=
  (* add origNode address (has no address tlv); is mandatory address *)
  c ← read (fun w => creator (_rreq_message_content_provider w));
  a ← read (fun w => addr (origNode (packet_data (_target w))));
  orig_node_addr ← rfc5444_writer_add_address c a true;
  (* add targNode address (has no address tlv); is mandatory address *)
  c ← read (fun w => creator (_rreq_message_content_provider w));
  a ← read (fun w => addr (targNode (packet_data (_target w))));
  _ ← rfc5444_writer_add_address c a true;
  (* add SeqNum TLV and metric TLV to origNode *)
  v ← read (fun w => seqnum (origNode (packet_data (_target w))));
  rfc5444_writer_add_addrtlv orig_node_addr
    (_rreq_addrtlvs RFC5444_MSGTLV_ORIGSEQNUM) v sizeof_uint16_t false;;
  v ← read (fun w => metric (origNode (packet_data (_target w))));
  rfc5444_writer_add_addrtlv orig_node_addr
    (_rreq_addrtlvs RFC5444_MSGTLV_METRIC) v sizeof_uint8_t false.

(** writer.c:132.  The locals [orig_node_seqnum], [targ_node_seqnum] and
    [targ_node_hopct] have the width of the values they are read from. *)
Definition _cb_rrep_add_addresses : M unit :=
  orig_node_seqnum ← read (fun w => seqnum (origNode (packet_data (_target w))));
  targ_node_seqnum ← aodvv2_seqnum_get;
  aodvv2_seqnum_inc;;
  targ_node_hopct ← read (fun w => metric (targNode (packet_data (_target w))));
  (* add origNode address (has no address tlv); is mandatory address *)
  c ← read (fun w => creator (_rrep_message_content_provider w));
  a ← read (fun w => addr (origNode (packet_data (_target w))));
  orig_node_addr ← rfc5444_writer_add_address c a true;
  (* add targNode address (has no address tlv); is mandatory address *)
  c ← read (fun w => creator (_rrep_message_content_provider w));
  a ← read (fun w => addr (targNode (packet_data (_target w))));
  targ_node_addr ← rfc5444_writer_add_address c a true;
  (* add OrigNode and TargNode SeqNum TLVs *)
  rfc5444_writer_add_addrtlv orig_node_addr
    (_rrep_addrtlvs RFC5444_MSGTLV_ORIGSEQNUM)
    orig_node_seqnum sizeof_uint16_t false;;
  rfc5444_writer_add_addrtlv targ_node_addr
    (_rrep_addrtlvs RFC5444_MSGTLV_TARGSEQNUM)
    targ_node_seqnum sizeof_uint16_t false;;
  (* Add Metric TLV to targNode Address *)
  rfc5444_writer_add_addrtlv targ_node_addr
    (_rrep_addrtlvs RFC5444_MSGTLV_METRIC)
    targ_node_hopct sizeof_uint8_t false.

(** The body the unit holds for a function symbol.  The unit defines
    [_cb_addMessageHeader]; for [_cb_add_message_header] it has the
    prototype only. *)
Definition header_fn_body (f : header_fn)
    : option (option msg_ptr -> M unit) :=
  match f with
  | fn_cb_addMessageHeader => Some _cb_addMessageHeader
  | fn_cb_add_message_header => None
  end.

Definition addresses_fn_body (f : addresses_fn) : M unit :=
  match f with
  | fn_cb_rreq_add_addresses => _cb_rreq_add_addresses
  | fn_cb_rrep_add_addresses => _cb_rrep_add_addresses
  end.

(** ** Message creation and flush *)

Definition clear_working (t : msg_ptr) : M unit :=
  modify_message t (set_working None None []).

(** The engine calls the header callback of the message if one is set and
    the unit has code for it; a symbol without a body contributes no call
    on the engine. *)
Definition call_addMessageHeader (t : msg_ptr) : M unit :=
  '(_, m) ← deref_message (Some t);
  match addMessageHeader m with
  | Some f => match header_fn_body f with
              | Some body => body (Some t)
              | None => mret tt
              end
  | None => mret tt
  end.

Definition call_addAddresses (t : msg_ptr) : M unit :=
  ps ← read (fun w => wr_providers (writer w));
  for_each ps (fun '(p, _) =>
    c ← read (get_provider p);
    if msgtype_eqb (cp_msg_type c) t then
      match addAddresses c with
      | Some f => addresses_fn_body f
      | None => mret tt
      end
    else mret tt).

(** Places the finished message into the packet buffer of every
    registered target. *)
Definition finish_message (t : msg_ptr) : M unit :=
  '(_, m) ← deref_message (Some t);
  ts ← read (fun w => wr_targets (writer w));
  for_each ts (fun r =>
    match r with
    | ref_target_interface =>
        modify (fun w => set_target
          (set_interface
             (set_pkt_messages
                (pkt_messages (interface (_target w)) ++
                   [{| wm_type := msg_type m; wm_hdr := msg_hdr m;
                       wm_hoplimit := msg_hoplimit m;
                       wm_addrs := msg_addrs m |}])
                (interface (_target w)))
             (_target w)) w)
    end).

(** Modelled from the spec: builds a message of the given kind for all
    registered targets: the header callback of the message, then the
    address callbacks of its content providers, then the finished message
    goes into the packet buffers.  A kind that is not registered builds
    nothing. *)
Definition rfc5444_writer_create_message_alltarget
    (msgid : rfc5444_msgtype) : M unit :=
  wr ← read writer;
  match find_message msgid wr with
  | None => mret tt
  | Some _ =>
      clear_working msgid;;
      call_addMessageHeader msgid;;
      call_addAddresses msgid;;
      finish_message msgid;;
      clear_working msgid
  end.

(** Modelled from the spec: hands the buffered messages of a target to
    its sender, once, and reports what the sender signalled; an empty
    buffer is not sent unless forced.  The sender finds the destination in
    the [aodvv2_writer_target_t] around the interface. *)
Definition rfc5444_writer_flush (r : target_ref) (force : bool) : M bool :=
  match r with
  | ref_target_interface =>
      i ← read (fun w => interface (_target w));
      match pkt_messages i, force with
      | [], false => mret true
      | msgs, _ =>
          match sendPacket i with
          | None => fault
          | Some send =>
              dest ← read (fun w => target_addr (_target w));
              let ok := send msgs dest in
              modify (fun w => set_wire
                (wire w ++ [{| tx_messages := msgs; tx_dest := dest;
                               tx_ok := ok |}]) w);;
              modify (fun w => set_target
                (set_interface (set_pkt_messages [] (interface (_target w)))
                   (_target w)) w);;
              mret ok
          end
      end
  end.

(** ** Public operations *)

(** writer.c:168 *)
Definition aodvv2_packet_writer_init (ptr : write_packet_func_ptr) : M unit :=
  mutex_init;;
  (* define interface for generating rfc5444 packets *)
  modify (fun w => set_target (set_interface
    {| packet_buffer := Some ref_packet_buffer;
       packet_size := packet_size (interface (_target w));
       sendPacket := sendPacket (interface (_target w));
       pkt_messages := pkt_messages (interface (_target w)) |}
    (_target w)) w);;
  modify (fun w => set_target (set_interface
    {| packet_buffer := packet_buffer (interface (_target w));
       packet_size := sizeof_buffer ref_packet_buffer;
       sendPacket := sendPacket (interface (_target w));
       pkt_messages := pkt_messages (interface (_target w)) |}
    (_target w)) w);;
  (* set function to send binary packet content *)
  modify (fun w => set_target (set_interface
    {| packet_buffer := packet_buffer (interface (_target w));
       packet_size := packet_size (interface (_target w));
       sendPacket := Some ptr;
       pkt_messages := pkt_messages (interface (_target w)) |}
    (_target w)) w);;
  (* define the rfc5444 writer *)
  modify (fun w => set_writer
    {| msg_buffer := Some ref_msg_buffer;
       msg_size := sizeof_buffer ref_msg_buffer;
       addrtlv_buffer := Some ref_msg_addrtlvs;
       addrtlv_size := sizeof_buffer ref_msg_addrtlvs;
       wr_targets := wr_targets (writer w);
       wr_providers := wr_providers (writer w);
       wr_messages := wr_messages (writer w) |} w);;
  (* initialize writer *)
  rfc5444_writer_init;;
  (* register a target (for sending messages to) in writer *)
  rfc5444_writer_register_target ref_target_interface;;
  (* register a message content providers for RREQ and RREP *)
  rfc5444_writer_register_msgcontentprovider
    ref_rreq_provider ref_rreq_addrtlvs;;
  rfc5444_writer_register_msgcontentprovider
    ref_rrep_provider ref_rrep_addrtlvs;;
  (* register rreq and rrep messages *)
  p ← rfc5444_writer_register_message
         RFC5444_MSGTYPE_RREQ false RFC5444_MAX_ADDRLEN;
  modify (set_rreq_msg p);;
  p ← rfc5444_writer_register_message
         RFC5444_MSGTYPE_RREP false RFC5444_MAX_ADDRLEN;
  modify (set_rrep_msg p);;
  '(t, _) ← (p ← read _rreq_msg; deref_message p);
  modify_message t (set_addMessageHeader (Some fn_cb_add_message_header));;
  '(t, _) ← (p ← read _rrep_msg; deref_message p);
  modify_message t (set_addMessageHeader (Some fn_cb_add_message_header)).

(** The statements of the send operations between lock and unlock. *)
Definition store_packet_data (src : ptr) : M unit :=
  d ← load mem_packet_data src;
  modify (fun w => set_target (set_packet_data d (_target w)) w).

Definition store_type (k : rfc5444_msgtype) : M unit :=
  modify (fun w => set_target (set_type (Some k) (_target w)) w).

Definition store_hoplimit (h : Z) : M unit :=
  modify (fun w => set_target
    (set_packet_data (set_hoplimit h (packet_data (_target w))) (_target w))
    w).

Definition store_target_addr (src : ptr) : M unit :=
  a ← load mem_netaddr src;
  modify (fun w => set_target (set_target_addr a (_target w)) w).

(** writer.c:212 *)
Definition aodvv2_packet_writer_send_rreq (packet_data_p next_hop : ptr)
    : M unit :=
  assert (not_null packet_data_p && not_null next_hop);;
  (* Make sure no other thread is using the writer right now *)
  mutex_lock;;
  store_packet_data packet_data_p;;
  store_type RFC5444_MSGTYPE_RREQ;;
  (d ← load mem_packet_data packet_data_p; store_hoplimit (hoplimit d));;
  (* set address to which the write_packet callback should send our RREQ *)
  store_target_addr next_hop;;
  rfc5444_writer_create_message_alltarget RFC5444_MSGTYPE_RREQ;;
  _ ← rfc5444_writer_flush ref_target_interface false;
  mutex_unlock.

(** writer.c:241 *)
Definition aodvv2_packet_writer_send_rrep (packet_data_p next_hop : ptr)
    : M unit :=
  assert (not_null packet_data_p && not_null next_hop);;
  (* Make sure no other thread is using the writer right now *)
  mutex_lock;;
  store_packet_data packet_data_p;;
  store_type RFC5444_MSGTYPE_RREP;;
  store_hoplimit (to_uint8 AODVV2_MAX_HOPCOUNT);;
  (* set address to which the write_packet callback should send our RREQ *)
  store_target_addr next_hop;;
  rfc5444_writer_create_message_alltarget RFC5444_MSGTYPE_RREP;;
  _ ← rfc5444_writer_flush ref_target_interface false;
  mutex_unlock.

(** ** Concurrent callers

    Several threads call the send operations.  A thread runs the
    statements of its call in program order, one statement per step; a
    statement that blocks gives no step, so a thread waits at
    [mutex_lock] while the mutex is held. *)

Inductive send_kind := SEND_RREQ | SEND_RREP.

Record request := {
  req_kind : send_kind;
  req_packet_data : ptr;
  req_next_hop : ptr;
}.

Definition send (r : request) : M unit :=
  match req_kind r with
  | SEND_RREQ =>
      aodvv2_packet_writer_send_rreq (req_packet_data r) (req_next_hop r)
  | SEND_RREP =>
      aodvv2_packet_writer_send_rrep (req_packet_data r) (req_next_hop r)
  end.

(** The statements of [aodvv2_packet_writer_send_rreq], in order. *)
Definition send_rreq_stmts (packet_data_p next_hop : ptr) : list (M unit) :=
  [ assert (not_null packet_data_p && not_null next_hop);
    mutex_lock;
    store_packet_data packet_data_p;
    store_type RFC5444_MSGTYPE_RREQ;
    (d ← load mem_packet_data packet_data_p; store_hoplimit (hoplimit d));
    store_target_addr next_hop;
    rfc5444_writer_create_message_alltarget RFC5444_MSGTYPE_RREQ;
    (_ ← rfc5444_writer_flush ref_target_interface false; mret tt);
    mutex_unlock ].

(** The statements of [aodvv2_packet_writer_send_rrep], in order. *)
Definition send_rrep_stmts (packet_data_p next_hop : ptr) : list (M unit) :=
  [ assert (not_null packet_data_p && not_null next_hop);
    mutex_lock;
    store_packet_data packet_data_p;
    store_type RFC5444_MSGTYPE_RREP;
    store_hoplimit (to_uint8 AODVV2_MAX_HOPCOUNT);
    store_target_addr next_hop;
    rfc5444_writer_create_message_alltarget RFC5444_MSGTYPE_RREP;
    (_ ← rfc5444_writer_flush ref_target_interface false; mret tt);
    mutex_unlock ].

Definition send_stmts (r : request) : list (M unit) :=
  match req_kind r with
  | SEND_RREQ => send_rreq_stmts (req_packet_data r) (req_next_hop r)
  | SEND_RREP => send_rrep_stmts (req_packet_data r) (req_next_hop r)
  end.

Definition run_stmts (l : list (M unit)) : M unit := for_each l id.

(** Positions in the statement list. *)
Definition pc_lock : nat := 1.
Definition pc_flush : nat := 7.
Definition pc_done : nat := 9.

Record thread := {
  th_req : request;
  th_pc : nat;
}.

Definition advance (t : thread) : thread :=
  {| th_req := th_req t; th_pc := S (th_pc t) |}.

(** A thread holds the mutex from after its lock to its unlock. *)
Definition in_critical_section (t : thread) : Prop :=
  (pc_lock < th_pc t < pc_done)%nat.

Definition finished (t : thread) : Prop := th_pc t = pc_done.

Definition config : Type := list thread * world.

(** One step: thread [i] runs its next statement, which returns. *)
Inductive step : config -> nat * nat -> config -> Prop :=
  | step_thread ts w i t s w' :
      ts !! i = Some t ->
      send_stmts (th_req t) !! th_pc t = Some s ->
      s w = Returns (tt, w') ->
      step (ts, w) (i, th_pc t) (<[i := advance t]> ts, w').

Inductive exec : config -> list (nat * nat) -> config -> Prop :=
  | exec_nil c : exec c [] c
  | exec_step c tr c1 l c2 :
      exec c tr c1 -> step c1 l c2 -> exec c (tr ++ [l]) c2.

Definition start (reqs : list request) : list thread :=
  map (fun r => {| th_req := r; th_pc := 0 |}) reqs.

(** The threads in the order in which they acquired the mutex. *)
Definition acquisitions (tr : list (nat * nat)) : list nat :=
  map fst (List.filter (fun l => Nat.eqb (snd l) pc_lock) tr).

(** The requests of the threads [ids], sent one after the other. *)
Definition send_all (reqs : list request) (ids : list nat) : M unit :=
  for_each (omap (fun i => reqs !! i) ids) send.

(** ** Notions used in the statements *)

(** A request whose pointers are non-null and point to caller objects. *)
Definition valid_request (w : world) (r : request) : Prop :=
  exists p q d a,
    req_packet_data r = Some p /\ req_next_hop r = Some q /\
    mem_packet_data w !! p = Some d /\ mem_netaddr w !! q = Some a.

(** The registrations that [aodvv2_packet_writer_init] leaves behind. *)
Definition registered_message (t : rfc5444_msgtype) : rfc5444_writer_message :=
  {| msg_type := t; msg_if_specific := false;
     msg_addr_len := RFC5444_MAX_ADDRLEN;
     addMessageHeader := Some fn_cb_add_message_header;
     msg_hdr := None; msg_hoplimit := None; msg_addrs := [] |}.

Record writer_registered (w : world) : Prop := {
  reg_targets : wr_targets (writer w) = [ref_target_interface];
  reg_providers :
    wr_providers (writer w) =
      [(ref_rreq_provider, ref_rreq_addrtlvs);
       (ref_rrep_provider, ref_rrep_addrtlvs)];
  reg_messages :
    wr_messages (writer w) =
      [registered_message RFC5444_MSGTYPE_RREQ;
       registered_message RFC5444_MSGTYPE_RREP];
  reg_rreq_provider :
    _rreq_message_content_provider w =
      {| cp_msg_type := RFC5444_MSGTYPE_RREQ;
         addAddresses := Some fn_cb_rreq_add_addresses;
         creator := Some RFC5444_MSGTYPE_RREQ |};
  reg_rrep_provider :
    _rrep_message_content_provider w =
      {| cp_msg_type := RFC5444_MSGTYPE_RREP;
         addAddresses := Some fn_cb_rrep_add_addresses;
         creator := Some RFC5444_MSGTYPE_RREP |};
  reg_sender : is_Some (sendPacket (interface (_target w)));
}.

(** The writer between two sends: initialised, mutex free, packet buffer
    flushed. *)
Record writer_idle (w : world) : Prop := {
  idle_registered : writer_registered w;
  idle_mutex : writer_mutex w = MUTEX_UNLOCKED;
  idle_packet_empty : pkt_messages (interface (_target w)) = [];
}.

(** The statics as the program image holds them before any call. *)
Definition statics_initial (w : world) : Prop :=
  _rreq_message_content_provider w = rreq_provider_initializer /\
  _rrep_message_content_provider w = rrep_provider_initializer.

Definition msgtlv_eqb (a b : rfc5444_msgtlv) : bool :=
  match a, b with
  | RFC5444_MSGTLV_ORIGSEQNUM, RFC5444_MSGTLV_ORIGSEQNUM => true
  | RFC5444_MSGTLV_TARGSEQNUM, RFC5444_MSGTLV_TARGSEQNUM => true
  | RFC5444_MSGTLV_METRIC, RFC5444_MSGTLV_METRIC => true
  | _, _ => false
  end.

(** The values a message carries in address TLVs of one kind. *)
Definition tlv_values (ty : rfc5444_msgtlv) (m : wire_message) : list Z :=
  flat_map
    (fun a => map atlv_value
       (List.filter (fun t => msgtlv_eqb (tlv_type (atlv_tlvtype t)) ty)
          (addr_tlvs a)))
    (wm_addrs m).

(** What [m] leaves unchanged, when it returns. *)
Definition preserves {A B} (f : world -> B) (m : M A) : Prop :=
  forall w a w', m w = Returns (a, w') -> f w' = f w.

(** [m] advances the sequence-number counter by one step. *)
Definition advances {A} (m : M A) : Prop :=
  forall w a w', m w = Returns (a, w') ->
    SequenceNumberCounter w' = seqnum_next (SequenceNumberCounter w).

(** The world after a send: the target holds the snapshot, the kind and
    the destination, and one packet went to the sender. *)
Definition delivered (k : rfc5444_msgtype) (d : aodvv2_packet_data_t)
    (a : netaddr) (m : wire_message) (w : world) : world :=
  set_wire
    (wire w ++
       [{| tx_messages := [m]; tx_dest := a;
           tx_ok := match sendPacket (interface (_target w)) with
                    | Some f => f [m] a
                    | None => false
                    end |}])
    (set_target
       {| interface := interface (_target w); packet_data := d;
          type := Some k; target_addr := a |} w).

(** The messages the two address callbacks build from a snapshot of the
    packet data (and, for a RREP, the sequence number drawn from the
    store); see [create_rreq_run] and [create_rrep_run]. *)
Definition composed_rreq (d : aodvv2_packet_data_t) : wire_message :=
  {| wm_type := RFC5444_MSGTYPE_RREQ; wm_hdr := None; wm_hoplimit := None;
     wm_addrs :=
       [{| address := addr (origNode d); mandatory := true;
           addr_tlvs :=
             [{| atlv_tlvtype := {| tlv_type := RFC5444_MSGTLV_ORIGSEQNUM;
                                    tlv_exttype := 0 |};
                 atlv_value := seqnum (origNode d);
                 atlv_length := 2; atlv_allow_dup := false |};
              {| atlv_tlvtype :=
                   {| tlv_type := RFC5444_MSGTLV_METRIC;
                      tlv_exttype := AODVV2_DEFAULT_METRIC_TYPE |};
                 atlv_value := metric (origNode d);
                 atlv_length := 1; atlv_allow_dup := false |}] |};
        {| address := addr (targNode d); mandatory := true;
           addr_tlvs := [] |}] |}.

Definition composed_rrep (d : aodvv2_packet_data_t) (targ_node_seqnum : Z)
    : wire_message :=
  {| wm_type := RFC5444_MSGTYPE_RREP; wm_hdr := None; wm_hoplimit := None;
     wm_addrs :=
       [{| address := addr (origNode d); mandatory := true;
           addr_tlvs :=
             [{| atlv_tlvtype := {| tlv_type := RFC5444_MSGTLV_ORIGSEQNUM;
                                    tlv_exttype := 0 |};
                 atlv_value := seqnum (origNode d);
                 atlv_length := 2; atlv_allow_dup := false |}] |};
        {| address := addr (targNode d); mandatory := true;
           addr_tlvs :=
             [{| atlv_tlvtype := {| tlv_type := RFC5444_MSGTLV_TARGSEQNUM;
                                    tlv_exttype := 0 |};
                 atlv_value := targ_node_seqnum;
                 atlv_length := 2; atlv_allow_dup := false |};
              {| atlv_tlvtype :=
                   {| tlv_type := RFC5444_MSGTLV_METRIC;
                      tlv_exttype := AODVV2_DEFAULT_METRIC_TYPE |};
                 atlv_value := metric (targNode d);
                 atlv_length := 1; atlv_allow_dup := false |}] |}] |}.

Definition push_message (m : wire_message) (w : world) : world :=
  set_target
    (set_interface
       (set_pkt_messages (pkt_messages (interface (_target w)) ++ [m])
          (interface (_target w)))
       (_target w)) w.

(** The packet of one request: its destination and its message are built
    from the objects the request points to. *)
Definition packet_of_request (w : world) (r : request) (tx : transmission)
    : Prop :=
  exists p q d a,
    req_packet_data r = Some p /\ req_next_hop r = Some q /\
    mem_packet_data w !! p = Some d /\ mem_netaddr w !! q = Some a /\
    tx_dest tx = a /\
    match req_kind r with
    | SEND_RREQ => tx_messages tx = [composed_rreq d]
    | SEND_RREP => exists s, tx_messages tx = [composed_rrep d s]
    end.

(** *** The invariant of concurrent executions *)

Definition outside (t : thread) : Prop :=
  (th_pc t <= pc_lock)%nat \/ th_pc t = pc_done.

Record threads_ok (reqs : list request) (order : list nat)
    (ts : list thread) : Prop := {
  ok_length : length ts = length reqs;
  ok_req : forall i t, ts !! i = Some t -> reqs !! i = Some (th_req t);
  ok_pc : forall i t, ts !! i = Some t -> (th_pc t <= pc_done)%nat;
  ok_order : forall i t, ts !! i = Some t ->
               (i ∈ order <-> (pc_lock < th_pc t)%nat);
  ok_ids : forall i, i ∈ order -> (i < length ts)%nat;
  ok_nodup : NoDup order;
}.

(** Either the mutex is free and the world is the result of the complete
    sends so far, in lock order; or one thread holds it and the world is
    that result followed by the statements the holder has run. *)
Inductive serialised (reqs : list request) (w0 : world) (order : list nat)
    (ts : list thread) (w : world) : Prop :=
  | ser_free :
      (forall i t, ts !! i = Some t -> outside t) ->
      send_all reqs order w0 = Returns (tt, w) ->
      writer_idle w ->
      serialised reqs w0 order ts w
  | ser_held order' h t w1 :
      order = order' ++ [h] ->
      ts !! h = Some t ->
      in_critical_section t ->
      (forall i t', i <> h -> ts !! i = Some t' -> outside t') ->
      send_all reqs order' w0 = Returns (tt, w1) ->
      writer_idle w1 ->
      run_stmts (take (th_pc t) (send_stmts (th_req t))) w1
        = Returns (tt, w) ->
      writer_mutex w = MUTEX_LOCKED ->
      ((th_pc t <= pc_flush)%nat -> wire w = wire w1) ->
      serialised reqs w0 order ts w.

(** *** Running a schedule

    The step relation as a function: thread [i] takes its next step if its
    next statement returns; a schedule is a list of thread numbers. *)
Definition step_fn (i : nat) (c : config) : option ((nat * nat) * config) :=
  match fst c !! i with
  | Some t =>
      match send_stmts (th_req t) !! th_pc t with
      | Some s =>
          match s (snd c) with
          | Returns (_, w') =>
              Some ((i, th_pc t), (<[i := advance t]> (fst c), w'))
          | _ => None
          end
      | None => None
      end
  | None => None
  end.

Fixpoint run_schedule (sched : list nat) (tr : list (nat * nat)) (c : config)
    : option (list (nat * nat) * config) :=
  match sched with
  | [] => Some (tr, c)
  | i :: sched' =>
      match step_fn i c with
      | Some (l, c') => run_schedule sched' (tr ++ [l]) c'
      | None => None
      end
  end.

(** *** Notions used for the other properties of the unit *)

(** The content providers hold the message kind and the address callback of
    their declarations (writer.c:52-56 and 72-76); [creator] is whatever
    the engine last stored. *)
Definition providers_declared (w : world) : Prop :=
  cp_msg_type (_rreq_message_content_provider w) = RFC5444_MSGTYPE_RREQ /\
  addAddresses (_rreq_message_content_provider w)
    = Some fn_cb_rreq_add_addresses /\
  cp_msg_type (_rrep_message_content_provider w) = RFC5444_MSGTYPE_RREP /\
  addAddresses (_rrep_message_content_provider w)
    = Some fn_cb_rrep_add_addresses.

Definition is_rrep (r : request) : bool :=
  match req_kind r with SEND_RREP => true | SEND_RREQ => false end.

(** The number of RREPs among some requests. *)
Definition count_rreps (rs : list request) : nat :=
  length (List.filter is_rrep rs).

End Writer.

(** ** A sample platform and scenario

    Sample values for the constants, addresses named by numbers, and the
    request of the specification's round-trip example: originator
    (A, seqnum 5, metric 0), target (B, seqnum 0, metric 0), hop limit 10,
    next hop C. *)

Definition sample_platform : Platform :=
  {| netaddr := Z;
     RFC5444_MAX_ADDRLEN := 16;
     AODVV2_DEFAULT_METRIC_TYPE := 3;
     AODVV2_MAX_HOPCOUNT := 250 |}.

Definition addr_A : Z := 10.
Definition addr_B : Z := 11.
Definition addr_C : Z := 12.

Definition sample_node (a seq met : Z) : @node_data sample_platform :=
  @Build_node_data sample_platform a seq met.

Definition sample_data : @aodvv2_packet_data_t sample_platform :=
  @Build_aodvv2_packet_data_t sample_platform 10
    (sample_node addr_A 5 0) (sample_node addr_B 0 0).

Definition zero_data : @aodvv2_packet_data_t sample_platform :=
  @Build_aodvv2_packet_data_t sample_platform 0
    (sample_node 0 0 0) (sample_node 0 0 0).

(** The program image before [aodvv2_packet_writer_init]: statics zeroed
    or holding their initialisers, the caller's objects in memory. *)
Definition boot_world (counter : Z) : @world sample_platform :=
  {| mem_packet_data := [sample_data];
     mem_netaddr := [addr_C];
     writer_mutex := MUTEX_UNLOCKED;
     writer := {| msg_buffer := None; msg_size := 0;
                  addrtlv_buffer := None; addrtlv_size := 0;
                  wr_targets := []; wr_providers := []; wr_messages := [] |};
     _target := @Build_aodvv2_writer_target_t sample_platform
                  {| packet_buffer := None; packet_size := 0;
                     sendPacket := None; pkt_messages := [] |}
                  zero_data None 0;
     _rreq_msg := None; _rrep_msg := None;
     _rreq_message_content_provider := rreq_provider_initializer;
     _rrep_message_content_provider := rrep_provider_initializer;
     SequenceNumberCounter := counter;
     wire := [] |}.

Definition sender_ok : @write_packet_func_ptr sample_platform :=
  fun _ _ => true.
Definition sender_failing : @write_packet_func_ptr sample_platform :=
  fun _ _ => false.

(** The world once the writer is initialised with a sender. *)
Definition ready_world (ptr : @write_packet_func_ptr sample_platform)
    (counter : Z) : @world sample_platform :=
  match aodvv2_packet_writer_init ptr (boot_world counter) with
  | Returns (_, w) => w
  | _ => boot_world counter
  end.

(** What the caller of a [void] function gets back: how the call ended. *)
Definition signal {W} (o : outcome (unit * W)) : outcome unit :=
  match o with
  | Returns (u, _) => Returns u
  | Aborts => Aborts
  | Blocks => Blocks
  | Faults => Faults
  end.

(** Two threads: thread 0 sends a RREQ, thread 1 a RREP, both from the
    sample data to next hop C. *)
Definition sample_requests : list request :=
  [ {| req_kind := SEND_RREQ; req_packet_data := Some 0%nat;
       req_next_hop := Some 0%nat |};
    {| req_kind := SEND_RREP; req_packet_data := Some 0%nat;
       req_next_hop := Some 0%nat |} ].

(** A schedule in which thread 1 locks first and thread 0 runs its
    assertion while thread 1 is composing. *)
Definition sample_schedule : list nat :=
  [1; 1; 1; 0; 1; 1; 1; 1; 1; 1; 0; 0; 0; 0; 0; 0; 0; 0]%nat.

(** * Properties *)

Section Properties.
Context `{Platform}.

(** ** Running calls *)

Lemma bind_run {A B} (m : M A) (k : A -> M B) w a w' :
  m w = Returns (a, w') -> (m ≫= k) w = k a w'.
Proof. intros E. unfold mbind, M_bind. rewrite E. reflexivity. Qed.

Lemma bind_returns {A B} (m : M A) (k : A -> M B) w b w' :
  (m ≫= k) w = Returns (b, w') ->
  exists a w1, m w = Returns (a, w1) /\ k a w1 = Returns (b, w').
Proof.
  unfold mbind, M_bind. intros E.
  destruct (m w) as [[a w1]| | |]; try discriminate. eauto.
Qed.

Lemma bind_assoc {A B C} (m : M A) (k : A -> M B) (g : B -> M C) w :
  ((m ≫= k) ≫= g) w = (m ≫= (fun a => k a ≫= g)) w.
Proof.
  unfold mbind, M_bind. destruct (m w) as [[a w1]| | |]; reflexivity.
Qed.

Lemma bind_ret_r (m : M unit) w : (m ≫= (fun _ => mret tt)) w = m w.
Proof.
  unfold mbind, M_bind, mret, M_ret.
  destruct (m w) as [[[] w1]| | |]; reflexivity.
Qed.

Lemma bind_ext {A B} (m : M A) (k k' : A -> M B) w :
  (forall a w1, k a w1 = k' a w1) -> (m ≫= k) w = (m ≫= k') w.
Proof.
  intros E. unfold mbind, M_bind.
  destruct (m w) as [[a w1]| | |]; auto.
Qed.

Lemma for_each_app {A} (l1 l2 : list A) (f : A -> M unit) w :
  for_each (l1 ++ l2) f w = (for_each l1 f;; for_each l2 f) w.
Proof.
  revert w. induction l1 as [|a l1 IH]; intros w; simpl.
  - reflexivity.
  - rewrite bind_assoc. apply bind_ext. intros _ w1. apply IH.
Qed.

Ltac destruct_world w :=
  let wr := fresh "wr" in
  let tg := fresh "tg" in
  let ifc := fresh "ifc" in
  destruct w as [? ? ? wr tg ? ? ? ? ? ?];
  destruct wr as [? ? ? ? ? ? ?];
  destruct tg as [ifc ? ? ?];
  destruct ifc as [? ? ? ?];
  simpl in *.

Lemma load_run {A} (cells : world -> list A) i v w :
  cells w !! i = Some v -> load cells (Some i) w = Returns (v, w).
Proof. intros E. unfold load. rewrite E. reflexivity. Qed.

Lemma store_packet_data_run w p d :
  mem_packet_data w !! p = Some d ->
  store_packet_data (Some p) w =
    Returns (tt, set_target (set_packet_data d (_target w)) w).
Proof.
  intros E. unfold store_packet_data.
  rewrite (bind_run _ _ _ _ _ (load_run mem_packet_data _ _ _ E)).
  reflexivity.
Qed.

Lemma load_hoplimit_run w p d :
  mem_packet_data w !! p = Some d ->
  (d ← load mem_packet_data (Some p); store_hoplimit (hoplimit d)) w =
    Returns (tt, set_target
      (set_packet_data (set_hoplimit (hoplimit d) (packet_data (_target w)))
         (_target w)) w).
Proof.
  intros E.
  rewrite (bind_run _ _ _ _ _ (load_run mem_packet_data _ _ _ E)).
  reflexivity.
Qed.

Lemma store_target_addr_run w q a :
  mem_netaddr w !! q = Some a ->
  store_target_addr (Some q) w =
    Returns (tt, set_target (set_target_addr a (_target w)) w).
Proof.
  intros E. unfold store_target_addr.
  rewrite (bind_run _ _ _ _ _ (load_run mem_netaddr _ _ _ E)).
  reflexivity.
Qed.

Lemma create_rreq_run w :
  writer_registered w ->
  rfc5444_writer_create_message_alltarget RFC5444_MSGTYPE_RREQ w =
    Returns (tt, push_message (composed_rreq (packet_data (_target w))) w).
Proof.
  intros [Ht Hp Hm Hrq Hrp _].
  destruct_world w. subst. reflexivity.
Qed.

Lemma create_rrep_run w :
  writer_registered w ->
  rfc5444_writer_create_message_alltarget RFC5444_MSGTYPE_RREP w =
    Returns (tt,
      set_SequenceNumberCounter (seqnum_next (SequenceNumberCounter w))
        (push_message
           (composed_rrep (packet_data (_target w)) (SequenceNumberCounter w))
           w)).
Proof.
  intros [Ht Hp Hm Hrq Hrp _].
  destruct_world w. subst. reflexivity.
Qed.

Lemma flush_run w m l f :
  pkt_messages (interface (_target w)) = m :: l ->
  sendPacket (interface (_target w)) = Some f ->
  rfc5444_writer_flush ref_target_interface false w =
    Returns (f (m :: l) (target_addr (_target w)),
      set_target
        (set_interface (set_pkt_messages [] (interface (_target w)))
           (_target w))
        (set_wire
           (wire w ++
              [{| tx_messages := m :: l; tx_dest := target_addr (_target w);
                  tx_ok := f (m :: l) (target_addr (_target w)) |}]) w)).
Proof.
  intros Hm Hf. destruct_world w. subst. reflexivity.
Qed.

(** The two send operations on an idle writer, with valid pointers. *)
Lemma send_rreq_run w p q d a :
  writer_idle w ->
  mem_packet_data w !! p = Some d ->
  mem_netaddr w !! q = Some a ->
  aodvv2_packet_writer_send_rreq (Some p) (Some q) w =
    Returns (tt,
      delivered RFC5444_MSGTYPE_RREQ (set_hoplimit (hoplimit d) d) a
        (composed_rreq d) w).
Proof.
  intros [Hreg Hmu Hpk] Hd Ha.
  pose proof Hreg as [Ht Hp Hm Hrq Hrp [f Hf]].
  unfold aodvv2_packet_writer_send_rreq.
  rewrite (bind_run _ _ w tt w) by reflexivity.
  erewrite bind_run by (unfold mutex_lock; rewrite Hmu; reflexivity).
  erewrite bind_run by (apply store_packet_data_run; exact Hd).
  erewrite bind_run by reflexivity.
  erewrite bind_run by (apply load_hoplimit_run; exact Hd).
  erewrite bind_run by (apply store_target_addr_run; exact Ha).
  erewrite bind_run by (apply create_rreq_run; split; simpl; eauto).
  erewrite bind_run by (eapply flush_run; simpl; [rewrite Hpk|]; eauto).
  destruct_world w. subst. destruct d. reflexivity.
Qed.

Lemma send_rrep_run w p q d a :
  writer_idle w ->
  mem_packet_data w !! p = Some d ->
  mem_netaddr w !! q = Some a ->
  aodvv2_packet_writer_send_rrep (Some p) (Some q) w =
    Returns (tt,
      set_SequenceNumberCounter (seqnum_next (SequenceNumberCounter w))
        (delivered RFC5444_MSGTYPE_RREP
           (set_hoplimit (to_uint8 AODVV2_MAX_HOPCOUNT) d) a
           (composed_rrep d (SequenceNumberCounter w)) w)).
Proof.
  intros [Hreg Hmu Hpk] Hd Ha.
  pose proof Hreg as [Ht Hp Hm Hrq Hrp [f Hf]].
  unfold aodvv2_packet_writer_send_rrep.
  rewrite (bind_run _ _ w tt w) by reflexivity.
  erewrite bind_run by (unfold mutex_lock; rewrite Hmu; reflexivity).
  erewrite bind_run by (apply store_packet_data_run; exact Hd).
  erewrite bind_run by reflexivity.
  erewrite bind_run by reflexivity.
  erewrite bind_run by (apply store_target_addr_run; exact Ha).
  erewrite bind_run by (apply create_rrep_run; split; simpl; eauto).
  erewrite bind_run by (eapply flush_run; simpl; [rewrite Hpk|]; eauto).
  destruct_world w. subst. destruct d. reflexivity.
Qed.

(** A send leaves the writer idle and the registrations in place. *)
Lemma delivered_idle k d a m w :
  writer_idle w -> writer_idle (delivered k d a m w).
Proof.
  intros [[Ht Hp Hm Hrq Hrp Hf] Hmu Hpk].
  split; [split|..]; simpl; assumption.
Qed.

Lemma set_counter_idle s w :
  writer_idle w -> writer_idle (set_SequenceNumberCounter s w).
Proof.
  intros [[Ht Hp Hm Hrq Hrp Hf] Hmu Hpk].
  split; [split|..]; simpl; assumption.
Qed.

(** [aodvv2_packet_writer_init] returns and leaves the writer idle. *)
Lemma init_idle ptr w :
  statics_initial w ->
  exists w', aodvv2_packet_writer_init ptr w = Returns (tt, w') /\
             writer_idle w' /\
             sendPacket (interface (_target w')) = Some ptr /\
             mem_packet_data w' = mem_packet_data w /\
             mem_netaddr w' = mem_netaddr w /\
             SequenceNumberCounter w' = SequenceNumberCounter w /\
             wire w' = wire w.
Proof.
  intros [Hrq Hrp]. destruct_world w. subst.
  eexists. split; [vm_compute; reflexivity|].
  split; [split; [split|..]|]; simpl; eauto.
Qed.

(** ** Frame reasoning: what a call leaves unchanged *)

Lemma preserves_ret {A B} (f : world -> B) (a : A) : preserves f (mret a).
Proof. intros w a' w' E. injection E as _ <-. reflexivity. Qed.

Lemma preserves_bind {A B C} (f : world -> C) (m : M A) (k : A -> M B) :
  preserves f m -> (forall a, preserves f (k a)) -> preserves f (m ≫= k).
Proof.
  intros Hm Hk w b w' E.
  apply bind_returns in E as (a & w1 & E1 & E2).
  rewrite (Hk a w1 b w' E2). exact (Hm w a w1 E1).
Qed.

Lemma preserves_get {B} (f : world -> B) : preserves f get.
Proof. intros w a w' E. injection E as _ <-. reflexivity. Qed.

Lemma preserves_modify {B} (f : world -> B) (g : world -> world) :
  (forall w, f (g w) = f w) -> preserves f (modify g).
Proof. intros Hg w a w' E. injection E as _ <-. apply Hg. Qed.

Lemma preserves_abort {A B} (f : world -> B) : preserves f (@abort _ A).
Proof. intros w a w' E. discriminate. Qed.

Lemma preserves_block {A B} (f : world -> B) : preserves f (@block _ A).
Proof. intros w a w' E. discriminate. Qed.

Lemma preserves_fault {A B} (f : world -> B) : preserves f (@fault _ A).
Proof. intros w a w' E. discriminate. Qed.

Lemma preserves_load {A B} (f : world -> B) (cells : world -> list A) p :
  preserves f (load cells p).
Proof.
  intros w a w' E. unfold load in E.
  destruct p as [i|]; [|discriminate].
  destruct (cells w !! i); [|discriminate].
  injection E as _ <-. reflexivity.
Qed.

Lemma preserves_deref_message {B} (f : world -> B) msg :
  preserves f (deref_message msg).
Proof.
  intros w a w' E. unfold deref_message in E.
  destruct msg as [t|]; [|discriminate].
  destruct (find_message t (writer w)); [|discriminate].
  injection E as _ <-. reflexivity.
Qed.

Lemma preserves_mutex_lock {B} (f : world -> B) :
  (forall w, f (set_writer_mutex MUTEX_LOCKED w) = f w) ->
  preserves f mutex_lock.
Proof.
  intros Hf w a w' E. unfold mutex_lock in E.
  destruct (writer_mutex w); [|discriminate].
  injection E as _ <-. apply Hf.
Qed.

Lemma preserves_for_each {A B} (f : world -> B) (l : list A)
    (g : A -> M unit) :
  (forall a, preserves f (g a)) -> preserves f (for_each l g).
Proof.
  intros Hg. induction l as [|a l IH]; simpl.
  - apply preserves_ret.
  - apply preserves_bind; [apply Hg | intros _; exact IH].
Qed.

Ltac frame_step :=
  first
    [ apply preserves_ret
    | apply preserves_get
    | apply preserves_abort
    | apply preserves_block
    | apply preserves_fault
    | apply preserves_load
    | apply preserves_deref_message
    | apply preserves_mutex_lock; intros; reflexivity
    | apply preserves_modify; intros; reflexivity
    | apply preserves_for_each; intros
    | apply preserves_bind; [| intros ]
    | match goal with
      | |- preserves _ (match header_fn_body ?h with _ => _ end) =>
          destruct h; simpl
      | |- preserves _ (match ?x with _ => _ end) => destruct x
      end ].

Ltac frame :=
  repeat first
    [ frame_step
    | progress unfold read, assert, modify_message, clear_working,
        mutex_init, mutex_unlock,
        rfc5444_writer_init, rfc5444_writer_register_target,
        rfc5444_writer_register_msgcontentprovider,
        rfc5444_writer_register_message,
        rfc5444_writer_set_msg_header, rfc5444_writer_set_msg_hoplimit,
        rfc5444_writer_add_address, rfc5444_writer_add_addrtlv,
        store_packet_data, store_type, store_hoplimit, store_target_addr,
        call_addMessageHeader, finish_message, _cb_addMessageHeader ].

(** *** The sequence-number counter *)

Lemma cb_addMessageHeader_counter message :
  preserves SequenceNumberCounter (_cb_addMessageHeader message).
Proof. unfold _cb_addMessageHeader. frame. Qed.

Lemma cb_rreq_counter : preserves SequenceNumberCounter _cb_rreq_add_addresses.
Proof. unfold _cb_rreq_add_addresses. frame. Qed.

Lemma init_counter ptr :
  preserves SequenceNumberCounter (aodvv2_packet_writer_init ptr).
Proof. unfold aodvv2_packet_writer_init. frame. Qed.

Lemma flush_counter r force :
  preserves SequenceNumberCounter (rfc5444_writer_flush r force).
Proof. unfold rfc5444_writer_flush. frame. Qed.

Lemma advances_bind_l {A B} (m : M A) (k : A -> M B) :
  preserves SequenceNumberCounter m -> (forall a, advances (k a)) ->
  advances (m ≫= k).
Proof.
  intros Hm Hk w b w' E.
  apply bind_returns in E as (a & w1 & E1 & E2).
  rewrite (Hk a w1 b w' E2). f_equal. exact (Hm w a w1 E1).
Qed.

Lemma advances_bind_r {A B} (m : M A) (k : A -> M B) :
  advances m -> (forall a, preserves SequenceNumberCounter (k a)) ->
  advances (m ≫= k).
Proof.
  intros Hm Hk w b w' E.
  apply bind_returns in E as (a & w1 & E1 & E2).
  rewrite (Hk a w1 b w' E2). exact (Hm w a w1 E1).
Qed.

Lemma seqnum_inc_advances : advances aodvv2_seqnum_inc.
Proof. intros w a w' E. injection E as _ <-. reflexivity. Qed.

Lemma cb_rrep_advances : advances _cb_rrep_add_addresses.
Proof.
  unfold _cb_rrep_add_addresses.
  apply advances_bind_l; [frame | intros orig_node_seqnum].
  apply advances_bind_l; [unfold aodvv2_seqnum_get; frame
                         | intros targ_node_seqnum].
  apply advances_bind_r; [apply seqnum_inc_advances | intros _].
  frame.
Qed.

(** *** Caller memory *)

Lemma addresses_fn_packet_data f :
  preserves mem_packet_data (addresses_fn_body f).
Proof.
  destruct f; simpl;
    unfold _cb_rreq_add_addresses, _cb_rrep_add_addresses,
      aodvv2_seqnum_get, aodvv2_seqnum_inc; frame.
Qed.

Lemma addresses_fn_netaddr f :
  preserves mem_netaddr (addresses_fn_body f).
Proof.
  destruct f; simpl;
    unfold _cb_rreq_add_addresses, _cb_rrep_add_addresses,
      aodvv2_seqnum_get, aodvv2_seqnum_inc; frame.
Qed.

Lemma create_message_packet_data msgid :
  preserves mem_packet_data (rfc5444_writer_create_message_alltarget msgid).
Proof.
  unfold rfc5444_writer_create_message_alltarget, call_addAddresses,
    _cb_addMessageHeader.
  frame; apply addresses_fn_packet_data.
Qed.

Lemma create_message_netaddr msgid :
  preserves mem_netaddr (rfc5444_writer_create_message_alltarget msgid).
Proof.
  unfold rfc5444_writer_create_message_alltarget, call_addAddresses,
    _cb_addMessageHeader.
  frame; apply addresses_fn_netaddr.
Qed.

Lemma send_rreq_packet_data p q :
  preserves mem_packet_data (aodvv2_packet_writer_send_rreq p q).
Proof.
  unfold aodvv2_packet_writer_send_rreq, rfc5444_writer_flush.
  frame; apply addresses_fn_packet_data.
Qed.

Lemma send_rreq_netaddr p q :
  preserves mem_netaddr (aodvv2_packet_writer_send_rreq p q).
Proof.
  unfold aodvv2_packet_writer_send_rreq, rfc5444_writer_flush.
  frame; apply addresses_fn_netaddr.
Qed.

Lemma send_rrep_packet_data p q :
  preserves mem_packet_data (aodvv2_packet_writer_send_rrep p q).
Proof.
  unfold aodvv2_packet_writer_send_rrep, rfc5444_writer_flush.
  frame; apply addresses_fn_packet_data.
Qed.

Lemma send_rrep_netaddr p q :
  preserves mem_netaddr (aodvv2_packet_writer_send_rrep p q).
Proof.
  unfold aodvv2_packet_writer_send_rrep, rfc5444_writer_flush.
  frame; apply addresses_fn_netaddr.
Qed.

(** ** The sequence-number store *)

Lemma seqnum_next_range s : 1 <= seqnum_next s <= 65535.
Proof.
  unfold seqnum_next, to_uint16.
  pose proof (Z.mod_pos_bound (s + 1) (2 ^ 16) ltac:(lia)).
  destruct (Z.eqb_spec ((s + 1) mod 2 ^ 16) 0); lia.
Qed.

Lemma seqnum_next_succ s : 0 <= s < 65535 -> seqnum_next s = s + 1.
Proof.
  intros Hs. unfold seqnum_next, to_uint16.
  rewrite Z.mod_small by lia.
  destruct (Z.eqb_spec (s + 1) 0); lia.
Qed.

Lemma seqnum_next_changes s : seqnum_next s <> s.
Proof.
  pose proof (seqnum_next_range s) as Hr.
  destruct (Z_lt_le_dec s 65535) as [Hlt|Hge].
  - destruct (Z_lt_le_dec s 0) as [Hneg|Hpos]; [lia|].
    rewrite seqnum_next_succ by lia. lia.
  - destruct (Z.eq_dec s 65535) as [->|Hne]; [vm_compute; discriminate | lia].
Qed.

(** ** Properties of the specification *)

(** C1: with valid pointers on an idle writer, [send_rreq] returns and
    leaves the SequenceNumberCounter as it was; [send_rrep] returns and
    leaves it advanced by exactly one step of the store, which is a change
    of its value.  The counter advances in the RREP address callback and
    nowhere else: the RREQ address callback, the header function and the
    initialisation preserve it in every world. *)
Theorem seqnum_counter_advances_only_in_rrep w p q d a :
  writer_idle w ->
  mem_packet_data w !! p = Some d ->
  mem_netaddr w !! q = Some a ->
  (exists w', aodvv2_packet_writer_send_rreq (Some p) (Some q) w
                = Returns (tt, w') /\
              SequenceNumberCounter w' = SequenceNumberCounter w) /\
  (exists w', aodvv2_packet_writer_send_rrep (Some p) (Some q) w
                = Returns (tt, w') /\
              SequenceNumberCounter w'
                = seqnum_next (SequenceNumberCounter w) /\
              SequenceNumberCounter w' <> SequenceNumberCounter w) /\
  advances _cb_rrep_add_addresses /\
  preserves SequenceNumberCounter _cb_rreq_add_addresses /\
  (forall message,
     preserves SequenceNumberCounter (_cb_addMessageHeader message)) /\
  (forall ptr,
     preserves SequenceNumberCounter (aodvv2_packet_writer_init ptr)).
Proof.
  intros Hidle Hd Ha. repeat split.
  - eexists. split; [apply (send_rreq_run _ _ _ _ _ Hidle Hd Ha)|].
    reflexivity.
  - eexists. split; [apply (send_rrep_run _ _ _ _ _ Hidle Hd Ha)|].
    split; [reflexivity | apply seqnum_next_changes].
  - apply cb_rrep_advances.
  - apply cb_rreq_counter.
  - apply cb_addMessageHeader_counter.
  - apply init_counter.
Qed.

(** C2: the target sequence number a RREP carries is the counter value
    read before the increment of the same call; two RREPs sent one after
    the other from the same data carry target sequence numbers one step
    apart. *)
Theorem rrep_target_seqnum_is_pre_increment w p q d a :
  writer_idle w ->
  mem_packet_data w !! p = Some d ->
  mem_netaddr w !! q = Some a ->
  exists w1 w2 m1 m2 ok1 ok2,
    aodvv2_packet_writer_send_rrep (Some p) (Some q) w = Returns (tt, w1) /\
    aodvv2_packet_writer_send_rrep (Some p) (Some q) w1 = Returns (tt, w2) /\
    wire w1 = wire w ++
      [{| tx_messages := [m1]; tx_dest := a; tx_ok := ok1 |}] /\
    wire w2 = wire w1 ++
      [{| tx_messages := [m2]; tx_dest := a; tx_ok := ok2 |}] /\
    tlv_values RFC5444_MSGTLV_TARGSEQNUM m1 = [SequenceNumberCounter w] /\
    SequenceNumberCounter w1 = seqnum_next (SequenceNumberCounter w) /\
    tlv_values RFC5444_MSGTLV_TARGSEQNUM m2
      = [seqnum_next (SequenceNumberCounter w)].
Proof.
  intros Hidle Hd Ha.
  pose proof (send_rrep_run _ _ _ _ _ Hidle Hd Ha) as E1.
  set (w1 := set_SequenceNumberCounter _ _) in E1.
  assert (Hidle1 : writer_idle w1)
    by (apply set_counter_idle, delivered_idle, Hidle).
  assert (Hd1 : mem_packet_data w1 !! p = Some d) by exact Hd.
  assert (Ha1 : mem_netaddr w1 !! q = Some a) by exact Ha.
  pose proof (send_rrep_run _ _ _ _ _ Hidle1 Hd1 Ha1) as E2.
  do 6 eexists.
  split; [exact E1|]. split; [exact E2|].
  repeat split; reflexivity.
Qed.

(** C3: after [send_rreq] the hop limit recorded in the target is the
    caller's [hoplimit]; after [send_rrep] it is AODVV2_MAX_HOPCOUNT (a
    constant that fits the 8-bit field), whatever hop limit the caller's
    data holds. *)
Theorem recorded_hoplimit w p q d a :
  0 <= AODVV2_MAX_HOPCOUNT <= 255 ->
  writer_idle w ->
  mem_packet_data w !! p = Some d ->
  mem_netaddr w !! q = Some a ->
  (exists w', aodvv2_packet_writer_send_rreq (Some p) (Some q) w
                = Returns (tt, w') /\
              hoplimit (packet_data (_target w')) = hoplimit d) /\
  (exists w', aodvv2_packet_writer_send_rrep (Some p) (Some q) w
                = Returns (tt, w') /\
              hoplimit (packet_data (_target w')) = AODVV2_MAX_HOPCOUNT).
Proof.
  intros Hmax Hidle Hd Ha. split.
  - eexists. split; [apply (send_rreq_run _ _ _ _ _ Hidle Hd Ha)|].
    reflexivity.
  - eexists. split; [apply (send_rrep_run _ _ _ _ _ Hidle Hd Ha)|].
    simpl. unfold to_uint8. apply Z.mod_small. lia.
Qed.

(** C4: a RREQ goes out as one message with the originator address and
    the target address, both mandatory, and exactly two address TLVs, both
    on the originator address: the originator sequence number copied from
    the input and the originator metric with the default metric
    sub-type.  The counter is not advanced. *)
Theorem rreq_addresses_and_attributes w p q d a :
  writer_idle w ->
  mem_packet_data w !! p = Some d ->
  mem_netaddr w !! q = Some a ->
  exists w' m ok,
    aodvv2_packet_writer_send_rreq (Some p) (Some q) w = Returns (tt, w') /\
    wire w' = wire w ++
      [{| tx_messages := [m]; tx_dest := a; tx_ok := ok |}] /\
    wm_type m = RFC5444_MSGTYPE_RREQ /\
    wm_addrs m =
      [{| address := addr (origNode d); mandatory := true;
          addr_tlvs :=
            [{| atlv_tlvtype := {| tlv_type := RFC5444_MSGTLV_ORIGSEQNUM;
                                   tlv_exttype := 0 |};
                atlv_value := seqnum (origNode d);
                atlv_length := sizeof_uint16_t;
                atlv_allow_dup := false |};
             {| atlv_tlvtype :=
                  {| tlv_type := RFC5444_MSGTLV_METRIC;
                     tlv_exttype := AODVV2_DEFAULT_METRIC_TYPE |};
                atlv_value := metric (origNode d);
                atlv_length := sizeof_uint8_t;
                atlv_allow_dup := false |}] |};
       {| address := addr (targNode d); mandatory := true;
          addr_tlvs := [] |}] /\
    SequenceNumberCounter w' = SequenceNumberCounter w.
Proof.
  intros Hidle Hd Ha.
  do 3 eexists.
  split; [apply (send_rreq_run _ _ _ _ _ Hidle Hd Ha)|].
  repeat split; reflexivity.
Qed.

(** C5: a RREP goes out as one message with the originator address and
    the target address, both mandatory, and exactly three address TLVs:
    the originator sequence number of the input on the originator
    address, and on the target address the target sequence number, which
    is the counter value before the increment, and the metric of the
    input's target node. *)
Theorem rrep_addresses_and_attributes w p q d a :
  writer_idle w ->
  mem_packet_data w !! p = Some d ->
  mem_netaddr w !! q = Some a ->
  exists w' m ok,
    aodvv2_packet_writer_send_rrep (Some p) (Some q) w = Returns (tt, w') /\
    wire w' = wire w ++
      [{| tx_messages := [m]; tx_dest := a; tx_ok := ok |}] /\
    wm_type m = RFC5444_MSGTYPE_RREP /\
    wm_addrs m =
      [{| address := addr (origNode d); mandatory := true;
          addr_tlvs :=
            [{| atlv_tlvtype := {| tlv_type := RFC5444_MSGTLV_ORIGSEQNUM;
                                   tlv_exttype := 0 |};
                atlv_value := seqnum (origNode d);
                atlv_length := sizeof_uint16_t;
                atlv_allow_dup := false |}] |};
       {| address := addr (targNode d); mandatory := true;
          addr_tlvs :=
            [{| atlv_tlvtype := {| tlv_type := RFC5444_MSGTLV_TARGSEQNUM;
                                   tlv_exttype := 0 |};
                atlv_value := SequenceNumberCounter w;
                atlv_length := sizeof_uint16_t;
                atlv_allow_dup := false |};
             {| atlv_tlvtype :=
                  {| tlv_type := RFC5444_MSGTLV_METRIC;
                     tlv_exttype := AODVV2_DEFAULT_METRIC_TYPE |};
                atlv_value := metric (targNode d);
                atlv_length := sizeof_uint8_t;
                atlv_allow_dup := false |}] |}] /\
    SequenceNumberCounter w' = seqnum_next (SequenceNumberCounter w).
Proof.
  intros Hidle Hd Ha.
  do 3 eexists.
  split; [apply (send_rrep_run _ _ _ _ _ Hidle Hd Ha)|].
  repeat split; reflexivity.
Qed.

(** C6: the increment of the store is total; its result is never 0 and
    stays within 16 bits; below the maximum it is the next value and at
    65535 it is 1.  Sending a RREP with the counter at 65535 leaves the
    counter at 1. *)
Theorem seqnum_increment_wraps_to_one :
  (forall w, exists w',
     aodvv2_seqnum_inc w = Returns (tt, w') /\
     SequenceNumberCounter w' = seqnum_next (SequenceNumberCounter w)) /\
  (forall s, seqnum_next s <> 0 /\ 1 <= seqnum_next s <= 65535) /\
  (forall s, 0 <= s < 65535 -> seqnum_next s = s + 1) /\
  seqnum_next 65535 = 1 /\
  (forall w p q d a,
     writer_idle w ->
     mem_packet_data w !! p = Some d ->
     mem_netaddr w !! q = Some a ->
     SequenceNumberCounter w = 65535 ->
     exists w', aodvv2_packet_writer_send_rrep (Some p) (Some q) w
                  = Returns (tt, w') /\
                SequenceNumberCounter w' = 1).
Proof.
  split; [|split; [|split; [|split]]].
  - intros w. eexists. split; reflexivity.
  - intros s. pose proof (seqnum_next_range s). lia.
  - apply seqnum_next_succ.
  - reflexivity.
  - intros w p q d a Hidle Hd Ha Hs.
    eexists. split; [apply (send_rrep_run _ _ _ _ _ Hidle Hd Ha)|].
    simpl. rewrite Hs. reflexivity.
Qed.

(** C8, as the code has it: the send operations return nothing.  On an
    idle writer with valid pointers a send hands exactly one packet to the
    sender, once, and returns normally with the unit value whatever the
    sender signalled. *)
Theorem transport_status_is_discarded w p q d a :
  writer_idle w ->
  mem_packet_data w !! p = Some d ->
  mem_netaddr w !! q = Some a ->
  (exists w' tx,
     aodvv2_packet_writer_send_rreq (Some p) (Some q) w = Returns (tt, w') /\
     wire w' = wire w ++ [tx] /\
     signal (aodvv2_packet_writer_send_rreq (Some p) (Some q) w)
       = Returns tt) /\
  (exists w' tx,
     aodvv2_packet_writer_send_rrep (Some p) (Some q) w = Returns (tt, w') /\
     wire w' = wire w ++ [tx] /\
     signal (aodvv2_packet_writer_send_rrep (Some p) (Some q) w)
       = Returns tt).
Proof.
  intros Hidle Hd Ha. split.
  - do 2 eexists.
    rewrite (send_rreq_run _ _ _ _ _ Hidle Hd Ha).
    repeat split; reflexivity.
  - do 2 eexists.
    rewrite (send_rrep_run _ _ _ _ _ Hidle Hd Ha).
    repeat split; reflexivity.
Qed.

(** C10: the send operations never write to caller memory: whenever a
    call returns, the packet-data objects and the addresses of the caller
    are what they were; with valid pointers on an idle writer the call
    returns and both arguments still point to the same values. *)
Theorem sends_leave_caller_data_unchanged :
  (forall p q, preserves mem_packet_data (aodvv2_packet_writer_send_rreq p q)) /\
  (forall p q, preserves mem_netaddr (aodvv2_packet_writer_send_rreq p q)) /\
  (forall p q, preserves mem_packet_data (aodvv2_packet_writer_send_rrep p q)) /\
  (forall p q, preserves mem_netaddr (aodvv2_packet_writer_send_rrep p q)) /\
  (forall w p q d a,
     writer_idle w ->
     mem_packet_data w !! p = Some d ->
     mem_netaddr w !! q = Some a ->
     (exists w', aodvv2_packet_writer_send_rreq (Some p) (Some q) w
                   = Returns (tt, w') /\
                 mem_packet_data w' !! p = Some d /\
                 mem_netaddr w' !! q = Some a) /\
     (exists w', aodvv2_packet_writer_send_rrep (Some p) (Some q) w
                   = Returns (tt, w') /\
                 mem_packet_data w' !! p = Some d /\
                 mem_netaddr w' !! q = Some a)).
Proof.
  split; [exact send_rreq_packet_data|].
  split; [exact send_rreq_netaddr|].
  split; [exact send_rrep_packet_data|].
  split; [exact send_rrep_netaddr|].
  intros w p q d a Hidle Hd Ha. split.
  - eexists. split; [apply (send_rreq_run _ _ _ _ _ Hidle Hd Ha)|].
    split; assumption.
  - eexists. split; [apply (send_rrep_run _ _ _ _ _ Hidle Hd Ha)|].
    split; assumption.
Qed.

(** ** Concurrent callers *)

Lemma assert_returns b w w' :
  assert b w = Returns (tt, w') -> b = true /\ w' = w.
Proof.
  destruct b; simpl; intros E; [|discriminate].
  injection E as <-. auto.
Qed.

Lemma send_stmts_length r : length (send_stmts r) = pc_done.
Proof. unfold send_stmts. destruct (req_kind r); reflexivity. Qed.

Lemma send_stmts_assert r :
  send_stmts r !! 0%nat =
    Some (assert (not_null (req_packet_data r) && not_null (req_next_hop r))).
Proof. unfold send_stmts. destruct (req_kind r); reflexivity. Qed.

Lemma send_stmts_lock r : send_stmts r !! pc_lock = Some mutex_lock.
Proof. unfold send_stmts. destruct (req_kind r); reflexivity. Qed.

Lemma send_stmts_unlock r : send_stmts r !! 8%nat = Some mutex_unlock.
Proof. unfold send_stmts. destruct (req_kind r); reflexivity. Qed.

(** Running the statements in order is the send operation. *)
Lemma run_stmts_send r w : run_stmts (send_stmts r) w = send r w.
Proof.
  unfold send, send_stmts, run_stmts.
  destruct (req_kind r); simpl;
    unfold aodvv2_packet_writer_send_rreq, aodvv2_packet_writer_send_rrep;
    repeat (apply bind_ext; intros ? ?);
    rewrite bind_assoc; apply bind_ext; intros ? ?;
    apply bind_ret_r.
Qed.

Lemma run_stmts_app l1 l2 w :
  run_stmts (l1 ++ l2) w = (run_stmts l1;; run_stmts l2) w.
Proof. apply for_each_app. Qed.

Lemma run_stmts_snoc l k s w :
  l !! k = Some s ->
  run_stmts (take (S k) l) w = (run_stmts (take k l);; s) w.
Proof.
  intros E. rewrite (take_S_r _ _ _ E), run_stmts_app.
  apply bind_ext. intros _ w1. apply bind_ret_r.
Qed.

Lemma valid_request_not_null w r :
  valid_request w r ->
  not_null (req_packet_data r) && not_null (req_next_hop r) = true.
Proof. intros (p & q & d & a & -> & -> & _). reflexivity. Qed.

(** A send of a valid request on an idle writer. *)
Lemma send_run r w :
  writer_idle w -> valid_request w r ->
  exists w' tx,
    send r w = Returns (tt, w') /\ writer_idle w' /\
    mem_packet_data w' = mem_packet_data w /\
    mem_netaddr w' = mem_netaddr w /\
    wire w' = wire w ++ [tx] /\ packet_of_request w r tx.
Proof.
  intros Hidle (p & q & d & a & Hp & Hq & Hd & Ha).
  unfold send, packet_of_request. rewrite Hp, Hq.
  destruct (req_kind r).
  - do 2 eexists. split; [apply (send_rreq_run _ _ _ _ _ Hidle Hd Ha)|].
    split; [apply delivered_idle, Hidle|].
    do 3 (split; [reflexivity|]).
    exists p, q, d, a. repeat split; auto.
  - do 2 eexists. split; [apply (send_rrep_run _ _ _ _ _ Hidle Hd Ha)|].
    split; [apply set_counter_idle, delivered_idle, Hidle|].
    do 3 (split; [reflexivity|]).
    exists p, q, d, a. repeat split; eauto.
Qed.

Lemma valid_request_memory w w' r :
  mem_packet_data w' = mem_packet_data w ->
  mem_netaddr w' = mem_netaddr w ->
  valid_request w r -> valid_request w' r.
Proof.
  intros E1 E2 (p & q & d & a & Hp & Hq & Hd & Ha).
  exists p, q, d, a. rewrite E1, E2. auto.
Qed.

Lemma packet_of_request_memory w w' r tx :
  mem_packet_data w' = mem_packet_data w ->
  mem_netaddr w' = mem_netaddr w ->
  packet_of_request w' r tx -> packet_of_request w r tx.
Proof.
  intros E1 E2 (p & q & d & a & Hp & Hq & Hd & Ha & Hx).
  exists p, q, d, a. rewrite <- E1, <- E2. auto.
Qed.

(** Sends one after the other: each returns and adds its packet. *)
Lemma sends_run rs w :
  writer_idle w -> Forall (valid_request w) rs ->
  exists w' txs,
    for_each rs send w = Returns (tt, w') /\ writer_idle w' /\
    mem_packet_data w' = mem_packet_data w /\
    mem_netaddr w' = mem_netaddr w /\
    wire w' = wire w ++ txs /\
    Forall2 (packet_of_request w) rs txs.
Proof.
  revert w. induction rs as [|r rs IH]; intros w Hidle Hval.
  - exists w, []. rewrite app_nil_r.
    split; [reflexivity|]. split; [exact Hidle|].
    do 3 (split; [reflexivity|]). constructor.
  - apply Forall_cons_1 in Hval as [Hr Hrs].
    destruct (send_run r w Hidle Hr)
      as (w1 & tx & E1 & Hidle1 & Hm1 & Hn1 & Hw1 & Htx).
    assert (Hrs1 : Forall (valid_request w1) rs).
    { eapply Forall_impl; [exact Hrs|].
      intros r'. apply valid_request_memory; assumption. }
    destruct (IH w1 Hidle1 Hrs1)
      as (w2 & txs & E2 & Hidle2 & Hm2 & Hn2 & Hw2 & Htxs).
    exists w2, (tx :: txs). simpl.
    rewrite (bind_run _ _ _ _ _ E1).
    split; [exact E2|]. split; [exact Hidle2|].
    split; [congruence|]. split; [congruence|].
    split; [rewrite Hw2, Hw1, <- app_assoc; reflexivity|].
    constructor; [exact Htx|].
    eapply Forall2_impl; [exact Htxs|].
    intros r' tx'. apply packet_of_request_memory; assumption.
Qed.

Ltac frame_callbacks :=
  unfold rfc5444_writer_create_message_alltarget, call_addAddresses,
    rfc5444_writer_flush;
  frame;
  match goal with
  | |- preserves _ (addresses_fn_body ?f) =>
      destruct f; simpl;
      unfold _cb_rreq_add_addresses, _cb_rrep_add_addresses,
        aodvv2_seqnum_get, aodvv2_seqnum_inc;
      frame
  end.

Lemma create_message_mutex msgid :
  preserves writer_mutex (rfc5444_writer_create_message_alltarget msgid).
Proof. frame_callbacks. Qed.

Lemma create_message_wire msgid :
  preserves wire (rfc5444_writer_create_message_alltarget msgid).
Proof. frame_callbacks. Qed.

Lemma flush_mutex r force :
  preserves writer_mutex (rfc5444_writer_flush r force).
Proof. unfold rfc5444_writer_flush. frame. Qed.

(** Between lock and unlock no statement touches the mutex. *)
Lemma critical_stmt_mutex r k s :
  (pc_lock < k < 8)%nat ->
  send_stmts r !! k = Some s ->
  preserves writer_mutex s.
Proof.
  unfold send_stmts, pc_lock. intros Hk E.
  destruct (req_kind r);
    (destruct k as [|[|[|[|[|[|[|[|k]]]]]]]]; simpl in E; try lia;
     injection E as <-;
     first [ apply create_message_mutex
           | apply preserves_bind; [apply flush_mutex | intros; apply preserves_ret]
           | solve [frame] ]).
Qed.

(** Before the flush no statement reaches the sender. *)
Lemma pre_flush_stmt_wire r k s :
  (k < pc_flush)%nat ->
  send_stmts r !! k = Some s ->
  preserves wire s.
Proof.
  unfold send_stmts, pc_flush. intros Hk E.
  destruct (req_kind r);
    (destruct k as [|[|[|[|[|[|[|k]]]]]]]; simpl in E; try lia;
     injection E as <-;
     first [ apply create_message_wire | solve [frame] ]).
Qed.

Lemma send_memory r :
  preserves mem_packet_data (send r) /\ preserves mem_netaddr (send r).
Proof.
  unfold send. destruct (req_kind r); split;
    auto using send_rreq_packet_data, send_rreq_netaddr,
      send_rrep_packet_data, send_rrep_netaddr.
Qed.

Lemma send_all_memory reqs ids :
  preserves mem_packet_data (send_all reqs ids) /\
  preserves mem_netaddr (send_all reqs ids).
Proof.
  unfold send_all. split; apply preserves_for_each; intros r;
    apply send_memory.
Qed.

Lemma send_all_snoc reqs ids h r w0 w1 :
  reqs !! h = Some r ->
  send_all reqs ids w0 = Returns (tt, w1) ->
  send_all reqs (ids ++ [h]) w0 = send r w1.
Proof.
  intros Hr E. unfold send_all in *.
  rewrite omap_app, for_each_app, (bind_run _ _ _ _ _ E).
  simpl. rewrite Hr. simpl. apply bind_ret_r.
Qed.

Lemma acquisitions_snoc tr i k :
  acquisitions (tr ++ [(i, k)]) =
    acquisitions tr ++ (if Nat.eqb k pc_lock then [i] else []).
Proof.
  unfold acquisitions. rewrite List.filter_app, map_app. simpl.
  destruct (Nat.eqb k pc_lock); reflexivity.
Qed.

Lemma lookup_advance (ts : list thread) i t j tj :
  ts !! i = Some t ->
  <[i := advance t]> ts !! j = Some tj ->
  (j = i /\ tj = advance t) \/ (j <> i /\ ts !! j = Some tj).
Proof.
  intros Hi Hj. destruct (decide (j = i)) as [->|Hne].
  - left. split; [reflexivity|].
    rewrite list_lookup_insert_eq in Hj by (eapply lookup_lt_Some; eauto).
    congruence.
  - right. rewrite list_lookup_insert_ne in Hj by auto. auto.
Qed.

Lemma threads_ok_advance reqs order ts i t :
  threads_ok reqs order ts ->
  ts !! i = Some t ->
  (th_pc t < pc_done)%nat ->
  th_pc t <> pc_lock ->
  threads_ok reqs order (<[i := advance t]> ts).
Proof.
  intros [Hlen Hreq Hpc Hord Hids Hnd] Hi Hlt Hne.
  split; try assumption.
  - rewrite length_insert. exact Hlen.
  - intros j tj Hj.
    destruct (lookup_advance _ _ _ _ _ Hi Hj) as [[-> ->]|[_ Hj']];
      simpl; eauto.
  - intros j tj Hj.
    destruct (lookup_advance _ _ _ _ _ Hi Hj) as [[-> ->]|[_ Hj']];
      [simpl; lia | eauto].
  - intros j tj Hj.
    destruct (lookup_advance _ _ _ _ _ Hi Hj) as [[-> ->]|[_ Hj']];
      [|eauto].
    rewrite (Hord _ _ Hi). simpl. lia.
  - intros j Hj. rewrite length_insert. auto.
Qed.

Lemma threads_ok_lock reqs order ts i t :
  threads_ok reqs order ts ->
  ts !! i = Some t ->
  th_pc t = pc_lock ->
  threads_ok reqs (order ++ [i]) (<[i := advance t]> ts).
Proof.
  intros [Hlen Hreq Hpc Hord Hids Hnd] Hi Hpci.
  assert (Hnotin : i ∉ order).
  { rewrite (Hord _ _ Hi). lia. }
  split.
  - rewrite length_insert. exact Hlen.
  - intros j tj Hj.
    destruct (lookup_advance _ _ _ _ _ Hi Hj) as [[-> ->]|[_ Hj']];
      simpl; eauto.
  - intros j tj Hj.
    destruct (lookup_advance _ _ _ _ _ Hi Hj) as [[-> ->]|[_ Hj']];
      [simpl; unfold pc_lock, pc_done in *; lia | eauto].
  - intros j tj Hj. rewrite elem_of_app, list_elem_of_singleton.
    destruct (lookup_advance _ _ _ _ _ Hi Hj) as [[-> ->]|[Hne Hj']].
    + simpl. split; [lia | auto].
    + rewrite (Hord _ _ Hj'). intuition.
  - intros j. rewrite elem_of_app, list_elem_of_singleton, length_insert.
    intros [Hj| ->]; [auto | eapply lookup_lt_Some; eauto].
  - apply NoDup_app.
    split; [exact Hnd|]. split; [|apply NoDup_singleton].
    intros x Hx Hx'. apply list_elem_of_singleton in Hx'. subst. auto.
Qed.

Lemma stmt_index_bound r k s :
  send_stmts r !! k = Some s -> (k < pc_done)%nat.
Proof.
  intros E. rewrite <- (send_stmts_length r).
  eapply lookup_lt_Some; eauto.
Qed.

Lemma run_prefix_lock r w :
  not_null (req_packet_data r) && not_null (req_next_hop r) = true ->
  writer_mutex w = MUTEX_UNLOCKED ->
  run_stmts (take 2 (send_stmts r)) w =
    Returns (tt, set_writer_mutex MUTEX_LOCKED w).
Proof.
  intros Hb Hmu. unfold send_stmts.
  destruct (req_kind r); simpl; rewrite Hb;
    unfold run_stmts, for_each; simpl;
    unfold mbind, M_bind, mret, M_ret, id, mutex_lock; simpl;
    rewrite Hmu; reflexivity.
Qed.

(** A step keeps the invariant. *)
Lemma step_invariant reqs w0 tr ts w l ts' w' :
  Forall (valid_request w0) reqs ->
  threads_ok reqs (acquisitions tr) ts ->
  serialised reqs w0 (acquisitions tr) ts w ->
  step (ts, w) l (ts', w') ->
  threads_ok reqs (acquisitions (tr ++ [l])) ts' /\
  serialised reqs w0 (acquisitions (tr ++ [l])) ts' w'.
Proof.
  intros Hval Hok Hser Hstep.
  inversion Hstep as [ts1 wa i t s wb Hi Hs Hrun]; subst.
  rewrite acquisitions_snoc.
  pose proof (stmt_index_bound _ _ _ Hs) as Hlt.
  pose proof Hok as [Hlen Hreq Hpc Hord Hids Hnd].
  assert (Hvalid : valid_request w0 (th_req t))
    by (eapply Forall_lookup_1; eauto).
  assert (Hilt : (i < length ts)%nat) by (eapply lookup_lt_Some; eauto).
  destruct (decide (th_pc t = 0%nat)) as [Hz|Hnz].
  - (* the assertion *)
    rewrite Hz in Hs |- *. rewrite send_stmts_assert in Hs.
    injection Hs as <-.
    apply assert_returns in Hrun as [_ ->].
    simpl. rewrite app_nil_r.
    split; [apply threads_ok_advance; auto; unfold pc_lock, pc_done; lia|].
    destruct Hser as [Hout Hall Hidle
                     | order' h th w1 Ho Hh Hcs Hout Hall Hidle Hpre Hmu Hwire].
    + apply ser_free; auto.
      intros j tj Hj.
      destruct (lookup_advance _ _ _ _ _ Hi Hj) as [[-> ->]|[_ Hj']];
        [left; simpl; unfold pc_lock; lia | eauto].
    + assert (Hne : i <> h).
      { intros ->. rewrite Hi in Hh. injection Hh as ->.
        unfold in_critical_section, pc_lock in Hcs. lia. }
      eapply ser_held with (h := h) (t := th); eauto.
      * rewrite list_lookup_insert_ne by auto. exact Hh.
      * intros j tj Hjh Hj.
        destruct (lookup_advance _ _ _ _ _ Hi Hj) as [[-> ->]|[_ Hj']];
          [left; simpl; unfold pc_lock; lia | eauto].
  - destruct (decide (th_pc t = pc_lock)) as [Hl|Hnl].
    + (* the lock *)
      rewrite Hl in Hs |- *. rewrite send_stmts_lock in Hs.
      injection Hs as <-. rewrite Nat.eqb_refl.
      split; [apply threads_ok_lock; auto|].
      destruct Hser as [Hout Hall Hidle
                       | order' h th w1 Ho Hh Hcs Hout Hall Hidle Hpre Hmu Hwire].
      * pose proof Hidle as [Hreg Hmu Hpk].
        unfold mutex_lock in Hrun. rewrite Hmu in Hrun.
        injection Hrun as <-.
        eapply ser_held with (order' := acquisitions tr) (h := i)
                             (t := advance t) (w1 := w); eauto.
        -- apply list_lookup_insert_eq. exact Hilt.
        -- unfold in_critical_section. simpl. rewrite Hl.
           unfold pc_lock, pc_done. lia.
        -- intros j tj Hne Hj.
           rewrite list_lookup_insert_ne in Hj by auto. eauto.
        -- simpl. rewrite Hl. unfold pc_lock.
           apply run_prefix_lock; [|exact Hmu].
           eapply valid_request_not_null; eauto.
      * unfold mutex_lock in Hrun. rewrite Hmu in Hrun. discriminate.
    + (* a statement between lock and unlock, or the unlock *)
      replace (Nat.eqb (th_pc t) pc_lock) with false
        by (symmetry; apply Nat.eqb_neq; auto).
      rewrite app_nil_r.
      split; [apply threads_ok_advance; auto|].
      destruct Hser as [Hout Hall Hidle
                       | order' h th w1 Ho Hh Hcs Hout Hall Hidle Hpre Hmu Hwire].
      * exfalso. destruct (Hout _ _ Hi) as [Hle|Heq];
          unfold pc_lock, pc_done in *; lia.
      * destruct (decide (i = h)) as [->|Hne].
        2:{ exfalso. destruct (Hout _ _ Hne Hi) as [Hle|Heq];
              unfold pc_lock, pc_done in *; lia. }
        rewrite Hi in Hh. injection Hh as <-.
        assert (Hpre' : run_stmts (take (S (th_pc t)) (send_stmts (th_req t)))
                          w1 = Returns (tt, w')).
        { rewrite (run_stmts_snoc _ _ _ _ Hs).
          rewrite (bind_run _ _ _ _ _ Hpre). exact Hrun. }
        destruct (decide (th_pc t = 8%nat)) as [H8|Hn8].
        -- (* the unlock completes the send *)
           assert (Hsend : send (th_req t) w1 = Returns (tt, w')).
           { rewrite <- run_stmts_send, <- Hpre'. f_equal.
             symmetry. apply take_ge.
             rewrite send_stmts_length, H8. unfold pc_done. lia. }
           assert (Hvalid1 : valid_request w1 (th_req t)).
           { destruct (send_all_memory reqs order') as [P1 P2].
             eapply valid_request_memory; [| |exact Hvalid].
             - exact (P1 _ _ _ Hall).
             - exact (P2 _ _ _ Hall). }
           destruct (send_run _ _ Hidle Hvalid1)
             as (w'' & tx & E & Hidle'' & _).
           rewrite Hsend in E. injection E as <-.
           apply ser_free.
           ++ intros j tj Hj.
              destruct (lookup_advance _ _ _ _ _ Hi Hj) as [[-> ->]|[Hjh Hj']];
                [right; unfold finished; simpl; rewrite H8; reflexivity
                | eauto].
           ++ rewrite Ho.
              rewrite (send_all_snoc _ _ _ _ _ _ (Hreq _ _ Hi) Hall).
              exact Hsend.
           ++ exact Hidle''.
        -- (* the holder stays inside *)
           eapply ser_held with (order' := order') (h := h)
                                (t := advance t) (w1 := w1); eauto.
           ++ apply list_lookup_insert_eq. exact Hilt.
           ++ unfold in_critical_section, pc_lock, pc_done in *. simpl. lia.
           ++ intros j tj Hjh Hj.
              rewrite list_lookup_insert_ne in Hj by auto. eauto.
           ++ assert (Hk : (pc_lock < th_pc t < 8)%nat)
                by (unfold pc_lock, pc_done in *; lia).
              rewrite (critical_stmt_mutex _ _ _ Hk Hs _ _ _ Hrun).
              exact Hmu.
           ++ simpl. intros Hle.
              assert (Hk : (th_pc t < pc_flush)%nat) by lia.
              rewrite (pre_flush_stmt_wire _ _ _ Hk Hs _ _ _ Hrun).
              apply Hwire. lia.
Qed.

Lemma start_lookup reqs i t :
  start reqs !! i = Some t ->
  exists r, reqs !! i = Some r /\ t = {| th_req := r; th_pc := 0 |}.
Proof.
  unfold start. rewrite list_lookup_fmap.
  destruct (reqs !! i) as [r|]; simpl; intros E; [|discriminate].
  injection E as <-. eauto.
Qed.

Lemma start_invariant reqs w0 :
  writer_idle w0 ->
  threads_ok reqs (acquisitions []) (start reqs) /\
  serialised reqs w0 (acquisitions []) (start reqs) w0.
Proof.
  intros Hidle. split; [split|].
  - unfold start. apply length_fmap.
  - intros i t Hi. apply start_lookup in Hi as (r & Hr & ->). exact Hr.
  - intros i t Hi. apply start_lookup in Hi as (r & Hr & ->).
    simpl. lia.
  - intros i t Hi. apply start_lookup in Hi as (r & Hr & ->).
    simpl. unfold pc_lock. rewrite elem_of_nil. lia.
  - simpl. intros i Hi. apply elem_of_nil in Hi. contradiction.
  - simpl. apply NoDup_nil_2.
  - apply ser_free; [|reflexivity|exact Hidle].
    intros i t Hi. apply start_lookup in Hi as (r & Hr & ->).
    left. simpl. lia.
Qed.

Lemma exec_invariant reqs w0 tr ts w :
  writer_idle w0 ->
  Forall (valid_request w0) reqs ->
  exec (start reqs, w0) tr (ts, w) ->
  threads_ok reqs (acquisitions tr) ts /\
  serialised reqs w0 (acquisitions tr) ts w.
Proof.
  intros Hidle Hval Hexec.
  remember (start reqs, w0) as c0 eqn:E0.
  remember (ts, w) as c eqn:E.
  revert ts w E.
  induction Hexec as [c|c tr c1 l c2 Hexec IH Hstep]; intros ts w E; subst.
  - injection E as <- <-. apply start_invariant, Hidle.
  - destruct c1 as [ts1 w1].
    destruct (IH eq_refl ts1 w1 eq_refl) as [Hok Hser].
    eapply step_invariant; eauto.
Qed.

Lemma omap_requests_valid reqs (P : request -> Prop) ids :
  Forall P reqs -> Forall P (omap (fun i => reqs !! i) ids).
Proof.
  intros Hall. induction ids as [|i ids IH]; simpl; [constructor|].
  destruct (reqs !! i) as [r|] eqn:E; simpl; [|exact IH].
  constructor; [exact (Forall_lookup_1 _ _ _ _ Hall E) | exact IH].
Qed.

Lemma omap_requests_length (reqs : list request) ids :
  (forall i, i ∈ ids -> (i < length reqs)%nat) ->
  length (omap (fun i => reqs !! i) ids) = length ids.
Proof.
  induction ids as [|i ids IH]; intros Hids; simpl; [reflexivity|].
  destruct (lookup_lt_is_Some_2 reqs i) as [r Hr].
  { apply Hids. left. }
  rewrite Hr. simpl. f_equal. apply IH.
  intros j Hj. apply Hids. right. exact Hj.
Qed.

(** The packets that complete sends in a given order hand to the
    sender. *)
Lemma send_all_packets reqs ids w0 w :
  writer_idle w0 ->
  Forall (valid_request w0) reqs ->
  send_all reqs ids w0 = Returns (tt, w) ->
  exists txs,
    wire w = wire w0 ++ txs /\
    Forall2 (packet_of_request w0) (omap (fun i => reqs !! i) ids) txs.
Proof.
  intros Hidle Hval E.
  destruct (sends_run (omap (fun i => reqs !! i) ids) w0 Hidle
              (omap_requests_valid _ _ _ Hval))
    as (w' & txs & E' & _ & _ & _ & Hw & Htxs).
  unfold send_all in E. rewrite E in E'. injection E' as <-.
  eauto.
Qed.

(** C9: threads that call the send operations concurrently are
    serialised by the writer mutex.  In every reachable state at most one
    thread is between its lock and its unlock, and no thread locks twice.
    The packets the sender has received are those of complete sends run
    one after the other in the order of lock acquisition: the i-th packet
    is built from the data and the next hop of the i-th thread to lock,
    the last thread to lock being left out while it has not flushed.
    When all threads have finished, every thread has locked once, the
    world is the one the sends yield when run sequentially in lock order,
    and the sender has received one packet per thread.  Until then some
    thread can always take a step. *)
Theorem concurrent_sends_are_serialised reqs w0 tr ts w :
  writer_idle w0 ->
  Forall (valid_request w0) reqs ->
  exec (start reqs, w0) tr (ts, w) ->
  (forall i j ti tj,
     ts !! i = Some ti -> ts !! j = Some tj ->
     in_critical_section ti -> in_critical_section tj -> i = j) /\
  NoDup (acquisitions tr) /\
  (exists sent w' txs,
     (sent = acquisitions tr \/ exists h, acquisitions tr = sent ++ [h]) /\
     send_all reqs sent w0 = Returns (tt, w') /\
     wire w = wire w' /\
     wire w = wire w0 ++ txs /\
     Forall2 (packet_of_request w0) (omap (fun i => reqs !! i) sent) txs) /\
  (Forall finished ts ->
     acquisitions tr ≡ₚ seq 0 (length reqs) /\
     send_all reqs (acquisitions tr) w0 = Returns (tt, w) /\
     length (wire w) = (length (wire w0) + length reqs)%nat) /\
  (forall i t, ts !! i = Some t -> ~ finished t ->
     exists l c', step (ts, w) l c').
Proof.
  intros Hidle Hval Hexec.
  destruct (exec_invariant _ _ _ _ _ Hidle Hval Hexec) as [Hok Hser].
  pose proof Hok as [Hlen Hreq Hpc Hord Hids Hnd].
  split; [|split; [exact Hnd|split; [|split]]].
  - (* mutual exclusion *)
    intros i j ti tj Hi Hj Hci Hcj.
    destruct Hser as [Hout Hall Hidle'
                     | order' h th w1 Ho Hh Hcs Hout Hall Hidle' Hpre Hmu Hwire].
    + exfalso. destruct (Hout _ _ Hi) as [Hle|Heq];
        unfold in_critical_section in Hci; lia.
    + destruct (decide (i = h)) as [->|Hih].
      * destruct (decide (j = h)) as [->|Hjh]; [reflexivity|].
        exfalso. destruct (Hout _ _ Hjh Hj) as [Hle|Heq];
          unfold in_critical_section in Hcj; lia.
      * exfalso. destruct (Hout _ _ Hih Hi) as [Hle|Heq];
          unfold in_critical_section in Hci; lia.
  - (* what the sender has received *)
    destruct Hser as [Hout Hall Hidle'
                     | order' h th w1 Ho Hh Hcs Hout Hall Hidle' Hpre Hmu Hwire].
    + destruct (send_all_packets _ _ _ _ Hidle Hval Hall) as (txs & Hw & Htxs).
      exists (acquisitions tr), w, txs. auto.
    + destruct (decide (th_pc th <= pc_flush)%nat) as [Hle|Hgt].
      * destruct (send_all_packets _ _ _ _ Hidle Hval Hall)
          as (txs & Hw & Htxs).
        exists order', w1, txs.
        rewrite (Hwire Hle). split; [right; eauto|]. auto.
      * assert (H8 : th_pc th = 8%nat)
          by (unfold in_critical_section, pc_flush, pc_done in *; lia).
        assert (Hsend : send (th_req th) w1
                        = Returns (tt, set_writer_mutex MUTEX_UNLOCKED w)).
        { rewrite <- run_stmts_send.
          rewrite <- (take_ge (send_stmts (th_req th)) 9)
            by (rewrite send_stmts_length; reflexivity).
          rewrite (run_stmts_snoc _ 8 _ _ (send_stmts_unlock _)).
          rewrite <- H8, (bind_run _ _ _ _ _ Hpre). reflexivity. }
        assert (Hall' : send_all reqs (acquisitions tr) w0
                        = Returns (tt, set_writer_mutex MUTEX_UNLOCKED w)).
        { rewrite Ho, (send_all_snoc _ _ _ _ _ _ (Hreq _ _ Hh) Hall).
          exact Hsend. }
        destruct (send_all_packets _ _ _ _ Hidle Hval Hall')
          as (txs & Hw & Htxs).
        exists (acquisitions tr), (set_writer_mutex MUTEX_UNLOCKED w), txs.
        auto.
  - (* all finished *)
    intros Hfin.
    assert (Hdone : forall i t, ts !! i = Some t -> th_pc t = pc_done).
    { intros i t Hi. exact (Forall_lookup_1 _ _ _ _ Hfin Hi). }
    destruct Hser as [Hout Hall Hidle'
                     | order' h th w1 Ho Hh Hcs Hout Hall Hidle' Hpre Hmu Hwire].
    2:{ exfalso. pose proof (Hdone _ _ Hh).
        unfold in_critical_section in Hcs. lia. }
    assert (Hperm : acquisitions tr ≡ₚ seq 0 (length reqs)).
    { apply NoDup_Permutation; [exact Hnd | apply NoDup_seq |].
      intros i. rewrite elem_of_seq. split.
      - intros Hi. apply Hids in Hi. lia.
      - intros [_ Hi]. simpl in Hi. rewrite <- Hlen in Hi.
        destruct (lookup_lt_is_Some_2 _ _ Hi) as [t Ht].
        apply (Hord _ _ Ht). rewrite (Hdone _ _ Ht).
        unfold pc_lock, pc_done. lia. }
    split; [exact Hperm|]. split; [exact Hall|].
    destruct (send_all_packets _ _ _ _ Hidle Hval Hall) as (txs & Hw & Htxs).
    rewrite Hw, length_app. f_equal.
    rewrite <- (Forall2_length _ _ _ Htxs).
    rewrite omap_requests_length.
    + rewrite Hperm. apply length_seq.
    + intros i Hi. rewrite <- Hlen. auto.
  - (* progress *)
    intros i t Hi Hnf. unfold finished in Hnf.
    assert (Hvalid : forall j tj, ts !! j = Some tj ->
                       valid_request w0 (th_req tj)).
    { intros j tj Hj. eapply Forall_lookup_1; eauto. }
    destruct Hser as [Hout Hall Hidle'
                     | order' h th w1 Ho Hh Hcs Hout Hall Hidle' Hpre Hmu Hwire].
    + destruct (Hout _ _ Hi) as [Hle|Heq]; [|contradiction].
      destruct (decide (th_pc t = 0%nat)) as [Hz|Hnz].
      * exists (i, th_pc t), (<[i := advance t]> ts, w).
        eapply step_thread; [exact Hi | rewrite Hz; apply send_stmts_assert |].
        rewrite (valid_request_not_null _ _ (Hvalid _ _ Hi)). reflexivity.
      * assert (Hl : th_pc t = pc_lock) by (unfold pc_lock in *; lia).
        exists (i, th_pc t),
          (<[i := advance t]> ts, set_writer_mutex MUTEX_LOCKED w).
        eapply step_thread; [exact Hi | rewrite Hl; apply send_stmts_lock |].
        destruct Hidle' as [_ Hmu' _].
        unfold mutex_lock. rewrite Hmu'. reflexivity.
    + destruct (lookup_lt_is_Some_2 (send_stmts (th_req th)) (th_pc th))
        as [s Hs].
      { rewrite send_stmts_length. unfold in_critical_section in Hcs. lia. }
      assert (Hvalid1 : valid_request w1 (th_req th)).
      { destruct (send_all_memory reqs order') as [P1 P2].
        eapply valid_request_memory; [| |exact (Hvalid _ _ Hh)].
        - exact (P1 _ _ _ Hall).
        - exact (P2 _ _ _ Hall). }
      destruct (send_run _ _ Hidle' Hvalid1) as (w'' & tx & E & _).
      rewrite <- run_stmts_send in E.
      rewrite <- (take_drop_middle _ _ _ Hs), run_stmts_app in E.
      rewrite (bind_run _ _ _ _ _ Hpre) in E.
      unfold run_stmts in E. simpl in E.
      apply bind_returns in E as ([] & w2 & Es & _).
      exists (h, th_pc th), (<[h := advance th]> ts, w2).
      eapply step_thread; eauto.
Qed.

Lemma step_fn_step i c l c' : step_fn i c = Some (l, c') -> step c l c'.
Proof.
  destruct c as [ts w]. unfold step_fn. simpl.
  destruct (ts !! i) as [t|] eqn:Hi; [|discriminate].
  destruct (send_stmts (th_req t) !! th_pc t) as [s|] eqn:Hs; [|discriminate].
  destruct (s w) as [[[] w']| | |] eqn:Hrun; try discriminate.
  intros E. injection E as <- <-.
  eapply step_thread; eauto.
Qed.

Lemma run_schedule_exec c0 sched tr c tr' c' :
  exec c0 tr c ->
  run_schedule sched tr c = Some (tr', c') ->
  exec c0 tr' c'.
Proof.
  revert tr c. induction sched as [|i sched IH]; intros tr c Hexec; simpl.
  - intros E. injection E as <- <-. exact Hexec.
  - destruct (step_fn i c) as [[l c1]|] eqn:Hstep; [|discriminate].
    apply IH. eapply exec_step; [exact Hexec|].
    eapply step_fn_step; eauto.
Qed.

(** ** Further properties of the unit *)

Lemma init_run ptr w :
  providers_declared w ->
  exists w',
    aodvv2_packet_writer_init ptr w = Returns (tt, w') /\
    writer_idle w' /\
    interface (_target w') =
      {| packet_buffer := Some ref_packet_buffer; packet_size := 128;
         sendPacket := Some ptr; pkt_messages := [] |} /\
    (msg_buffer (writer w') = Some ref_msg_buffer /\
     msg_size (writer w') = 128 /\
     addrtlv_buffer (writer w') = Some ref_msg_addrtlvs /\
     addrtlv_size (writer w') = 1000) /\
    (_rreq_msg w' = Some RFC5444_MSGTYPE_RREQ /\
     _rrep_msg w' = Some RFC5444_MSGTYPE_RREP) /\
    (packet_data (_target w') = packet_data (_target w) /\
     type (_target w') = type (_target w) /\
     target_addr (_target w') = target_addr (_target w)) /\
    (mem_packet_data w' = mem_packet_data w /\
     mem_netaddr w' = mem_netaddr w /\
     SequenceNumberCounter w' = SequenceNumberCounter w /\
     wire w' = wire w).
Proof.
  intros (H1 & H2 & H3 & H4). destruct_world w.
  repeat match goal with
         | c : rfc5444_writer_content_provider |- _ => destruct c
         end.
  simpl in *. subst.
  eexists. split; [vm_compute; reflexivity|].
  split; [split; [split|..]; simpl; eauto|].
  repeat split.
Qed.

(** X1: whenever the content providers hold their declared kind and
    callback, as in the program image, [aodvv2_packet_writer_init] returns
    whatever the mutex, the writer and the target held before.  It leaves
    the writer idle: mutex free, the target registered with an empty
    128-byte packet buffer and the given sender, both providers and both
    message kinds registered, message buffer of 128 and address-TLV buffer
    of 1000 bytes.  It does not touch the data of the target, caller
    memory, the sequence-number counter or the transport. *)
Theorem init_leaves_writer_idle ptr w :
  providers_declared w ->
  exists w',
    aodvv2_packet_writer_init ptr w = Returns (tt, w') /\
    writer_idle w' /\
    interface (_target w') =
      {| packet_buffer := Some ref_packet_buffer; packet_size := 128;
         sendPacket := Some ptr; pkt_messages := [] |} /\
    (msg_buffer (writer w') = Some ref_msg_buffer /\
     msg_size (writer w') = 128 /\
     addrtlv_buffer (writer w') = Some ref_msg_addrtlvs /\
     addrtlv_size (writer w') = 1000) /\
    (_rreq_msg w' = Some RFC5444_MSGTYPE_RREQ /\
     _rrep_msg w' = Some RFC5444_MSGTYPE_RREP) /\
    (packet_data (_target w') = packet_data (_target w) /\
     type (_target w') = type (_target w) /\
     target_addr (_target w') = target_addr (_target w)) /\
    (mem_packet_data w' = mem_packet_data w /\
     mem_netaddr w' = mem_netaddr w /\
     SequenceNumberCounter w' = SequenceNumberCounter w /\
     wire w' = wire w).
Proof. apply init_run. Qed.

(** X2: a NULL [packet_data] or a NULL [next_hop] fails the assertion of
    both send operations: the call aborts before it takes the mutex, in
    every world, also while the mutex is held. *)
Theorem null_argument_aborts_send p q w :
  p = None \/ q = None ->
  aodvv2_packet_writer_send_rreq p q w = Aborts /\
  aodvv2_packet_writer_send_rrep p q w = Aborts.
Proof.
  intros Hnull.
  assert (Hb : not_null p && not_null q = false).
  { destruct Hnull as [-> | ->]; [reflexivity|]. destruct p; reflexivity. }
  unfold aodvv2_packet_writer_send_rreq, aodvv2_packet_writer_send_rrep.
  rewrite Hb. split; reflexivity.
Qed.

(** X3: with non-null arguments and the mutex held, both send operations
    block at [mutex_lock]: nothing is copied, composed or sent. *)
Theorem held_mutex_blocks_send p q w :
  writer_mutex w = MUTEX_LOCKED ->
  aodvv2_packet_writer_send_rreq (Some p) (Some q) w = Blocks /\
  aodvv2_packet_writer_send_rrep (Some p) (Some q) w = Blocks.
Proof.
  intros Hmu.
  unfold aodvv2_packet_writer_send_rreq, aodvv2_packet_writer_send_rrep.
  split;
    (rewrite (bind_run _ _ w tt w) by reflexivity;
     unfold mbind, M_bind, mutex_lock; rewrite Hmu; reflexivity).
Qed.

(** X4: a send on an idle writer with valid pointers returns and leaves
    the writer idle again: mutex released, packet buffer flushed, working
    area of the message cleared, registrations in place.  The target then
    holds a copy of the caller's data (for a RREP with the hop limit
    replaced), the message kind and the next hop. *)
Theorem send_leaves_writer_idle w p q d a :
  writer_idle w ->
  mem_packet_data w !! p = Some d ->
  mem_netaddr w !! q = Some a ->
  (exists w',
     aodvv2_packet_writer_send_rreq (Some p) (Some q) w = Returns (tt, w') /\
     writer_idle w' /\
     _target w' = {| interface := interface (_target w); packet_data := d;
                     type := Some RFC5444_MSGTYPE_RREQ; target_addr := a |}) /\
  (exists w',
     aodvv2_packet_writer_send_rrep (Some p) (Some q) w = Returns (tt, w') /\
     writer_idle w' /\
     _target w' = {| interface := interface (_target w);
                     packet_data :=
                       {| hoplimit := to_uint8 AODVV2_MAX_HOPCOUNT;
                          origNode := origNode d; targNode := targNode d |};
                     type := Some RFC5444_MSGTYPE_RREP; target_addr := a |}).
Proof.
  intros Hidle Hd Ha. split.
  - eexists. split; [apply (send_rreq_run _ _ _ _ _ Hidle Hd Ha)|].
    split; [apply delivered_idle, Hidle|].
    destruct d. reflexivity.
  - eexists. split; [apply (send_rrep_run _ _ _ _ _ Hidle Hd Ha)|].
    split; [apply set_counter_idle, delivered_idle, Hidle|].
    reflexivity.
Qed.

Lemma send_run_counter r w :
  writer_idle w -> valid_request w r ->
  exists w',
    send r w = Returns (tt, w') /\ writer_idle w' /\
    mem_packet_data w' = mem_packet_data w /\
    mem_netaddr w' = mem_netaddr w /\
    SequenceNumberCounter w' =
      (if is_rrep r then seqnum_next (SequenceNumberCounter w)
       else SequenceNumberCounter w) /\
    length (wire w') = S (length (wire w)).
Proof.
  intros Hidle (p & q & d & a & Hp & Hq & Hd & Ha).
  unfold send, is_rrep. rewrite Hp, Hq.
  destruct (req_kind r).
  - eexists. split; [apply (send_rreq_run _ _ _ _ _ Hidle Hd Ha)|].
    split; [apply delivered_idle, Hidle|].
    do 3 (split; [reflexivity|]).
    simpl. rewrite length_app. simpl. lia.
  - eexists. split; [apply (send_rrep_run _ _ _ _ _ Hidle Hd Ha)|].
    split; [apply set_counter_idle, delivered_idle, Hidle|].
    do 3 (split; [reflexivity|]).
    simpl. rewrite length_app. simpl. lia.
Qed.

Lemma sends_counter rs w :
  writer_idle w -> Forall (valid_request w) rs ->
  exists w',
    for_each rs send w = Returns (tt, w') /\ writer_idle w' /\
    SequenceNumberCounter w' =
      Nat.iter (count_rreps rs) seqnum_next (SequenceNumberCounter w) /\
    length (wire w') = (length (wire w) + length rs)%nat.
Proof.
  revert w. induction rs as [|r rs IH]; intros w Hidle Hval.
  - exists w. split; [reflexivity|]. split; [exact Hidle|].
    split; [reflexivity | simpl; lia].
  - apply Forall_cons_1 in Hval as [Hr Hrs].
    destruct (send_run_counter r w Hidle Hr)
      as (w1 & E1 & Hidle1 & Hm1 & Hn1 & Hc1 & Hl1).
    assert (Hrs1 : Forall (valid_request w1) rs).
    { eapply Forall_impl; [exact Hrs|].
      intros r'. apply valid_request_memory; assumption. }
    destruct (IH w1 Hidle1 Hrs1) as (w2 & E2 & Hidle2 & Hc2 & Hl2).
    exists w2. simpl. rewrite (bind_run _ _ _ _ _ E1).
    split; [exact E2|]. split; [exact Hidle2|].
    split; [|rewrite Hl2, Hl1; lia].
    rewrite Hc2, Hc1. unfold count_rreps. simpl.
    destruct (is_rrep r); [|reflexivity].
    simpl. rewrite <- Nat.iter_succ_r. reflexivity.
Qed.

(** X5: valid requests sent one after the other on an idle writer all
    return; the writer is idle afterwards, the transport has received one
    packet per request, and the sequence-number counter has advanced by
    exactly as many steps as there are RREPs among them. *)
Theorem counter_advances_once_per_rrep rs w :
  writer_idle w -> Forall (valid_request w) rs ->
  exists w',
    for_each rs send w = Returns (tt, w') /\ writer_idle w' /\
    SequenceNumberCounter w' =
      Nat.iter (count_rreps rs) seqnum_next (SequenceNumberCounter w) /\
    length (wire w') = (length (wire w) + length rs)%nat.
Proof. apply sends_counter. Qed.

Lemma seqnum_next_iter s k :
  1 <= s <= 65535 ->
  Nat.iter k seqnum_next s = (s - 1 + Z.of_nat k) mod 65535 + 1.
Proof.
  intros Hs. induction k as [|k IH].
  - simpl. rewrite Z.add_0_r, Z.mod_small by lia. lia.
  - rewrite Nat.iter_succ, IH.
    replace (s - 1 + Z.of_nat (S k)) with (s - 1 + Z.of_nat k + 1) by lia.
    rewrite <- (Zplus_mod_idemp_l (s - 1 + Z.of_nat k) 1 65535).
    pose proof (Z.mod_pos_bound (s - 1 + Z.of_nat k) 65535 ltac:(lia)) as Hb.
    set (y := (s - 1 + Z.of_nat k) mod 65535) in *.
    destruct (Z.eq_dec y 65534) as [Hy|Hy].
    + rewrite Hy. reflexivity.
    + rewrite seqnum_next_succ by lia.
      rewrite (Z.mod_small (y + 1)) by lia. reflexivity.
Qed.

Lemma count_rreps_replicate k r :
  is_rrep r = true -> count_rreps (replicate k r) = k.
Proof.
  intros Hr. unfold count_rreps.
  induction k as [|k IH]; simpl; [reflexivity|].
  rewrite Hr. simpl. f_equal. exact IH.
Qed.

(** X6: [k] RREPs sent in a row, starting with the counter at a value [s]
    of the protocol domain 1..65535, leave the counter at
    ((s - 1 + k) mod 65535) + 1: the counter runs through 1..65535 in a
    cycle, is never 0, and is back at [s] after 65535 RREPs. *)
Theorem rrep_counter_cycles k r w :
  writer_idle w -> valid_request w r -> req_kind r = SEND_RREP ->
  1 <= SequenceNumberCounter w <= 65535 ->
  exists w',
    for_each (replicate k r) send w = Returns (tt, w') /\
    SequenceNumberCounter w' =
      (SequenceNumberCounter w - 1 + Z.of_nat k) mod 65535 + 1 /\
    1 <= SequenceNumberCounter w' <= 65535 /\
    (Z.of_nat k = 65535 -> SequenceNumberCounter w' = SequenceNumberCounter w).
Proof.
  intros Hidle Hr Hk Hs.
  destruct (sends_counter (replicate k r) w Hidle)
    as (w' & E & _ & Hc & _).
  { apply Forall_replicate. exact Hr. }
  rewrite count_rreps_replicate in Hc by (unfold is_rrep; rewrite Hk; reflexivity).
  rewrite seqnum_next_iter in Hc by exact Hs.
  exists w'. split; [exact E|]. split; [exact Hc|].
  pose proof (Z.mod_pos_bound (SequenceNumberCounter w - 1 + Z.of_nat k)
                65535 ltac:(lia)).
  split; [lia|].
  intros Hk'. rewrite Hc, Hk'.
  replace (SequenceNumberCounter w - 1 + 65535)
    with (SequenceNumberCounter w - 1 + 1 * 65535) by lia.
  rewrite Z.mod_add by lia. rewrite Z.mod_small by lia. lia.
Qed.

Ltac frame_address_callback :=
  unfold _cb_rreq_add_addresses, _cb_rrep_add_addresses,
    aodvv2_seqnum_get, aodvv2_seqnum_inc;
  frame.

(** X7: the two address callbacks write to the message under construction
    and, for the RREP, to the sequence-number counter; whenever they
    return, in any world, the target with its snapshot of the packet data,
    the mutex, the transport, caller memory, the content providers and the
    registrations of the engine are what they were. *)
Theorem address_callbacks_write_only_the_message f :
  preserves _target (addresses_fn_body f) /\
  preserves writer_mutex (addresses_fn_body f) /\
  preserves wire (addresses_fn_body f) /\
  preserves mem_packet_data (addresses_fn_body f) /\
  preserves mem_netaddr (addresses_fn_body f) /\
  preserves _rreq_message_content_provider (addresses_fn_body f) /\
  preserves _rrep_message_content_provider (addresses_fn_body f) /\
  preserves (fun w => wr_targets (writer w)) (addresses_fn_body f) /\
  preserves (fun w => wr_providers (writer w)) (addresses_fn_body f) /\
  preserves (fun w => map msg_type (wr_messages (writer w)))
    (addresses_fn_body f) /\
  match f with
  | fn_cb_rreq_add_addresses =>
      preserves SequenceNumberCounter (addresses_fn_body f)
  | fn_cb_rrep_add_addresses => advances (addresses_fn_body f)
  end.
Proof.
  assert (Htypes : forall t g wr,
            (forall m, msg_type (g m) = msg_type m) ->
            map msg_type (wr_messages (update_message t g wr))
              = map msg_type (wr_messages wr)).
  { intros t g wr Hg. unfold update_message. simpl.
    rewrite map_map. apply map_ext. intros m.
    destruct (msgtype_eqb (msg_type m) t); [apply Hg | reflexivity]. }
  destruct f; simpl;
    (repeat split;
     try solve [frame_address_callback
               | apply cb_rreq_counter | apply cb_rrep_advances]).
  all: unfold _cb_rreq_add_addresses, _cb_rrep_add_addresses,
         aodvv2_seqnum_get, aodvv2_seqnum_inc, read, modify_message,
         rfc5444_writer_add_address, rfc5444_writer_add_addrtlv.
  all: repeat first
         [ apply preserves_ret | apply preserves_get | apply preserves_fault
         | apply preserves_deref_message
         | apply preserves_modify; intros; first
             [ reflexivity | simpl; apply Htypes; intros; reflexivity ]
         | apply preserves_bind; [| intros ]
         | match goal with
           | |- preserves _ (match ?x with _ => _ end) => destruct x
           end ].
Qed.

Lemma find_message_update t g wr m :
  (forall x, msg_type (g x) = msg_type x) ->
  find_message t wr = Some m ->
  find_message t (update_message t g wr) = Some (g m).
Proof.
  intros Hg. unfold find_message, update_message. simpl.
  induction (wr_messages wr) as [|x l IH]; simpl; [discriminate|].
  destruct (msgtype_eqb (msg_type x) t) eqn:E.
  - intros Hx. injection Hx as <-. rewrite Hg, E. reflexivity.
  - rewrite E. exact IH.
Qed.

(** X8: [_cb_addMessageHeader] on a message registered in the engine
    returns and sets the header of that message to: no originator, no hop
    count, hop limit present, no sequence number, with the hop limit of
    the target's packet data; the addresses of the message and its bound
    callback stay, and so do the target, the counter, the transport and
    caller memory.  On a NULL message it faults. *)
Theorem cb_addMessageHeader_sets_flags_and_hoplimit w t m :
  find_message t (writer w) = Some m ->
  (exists w' m',
     _cb_addMessageHeader (Some t) w = Returns (tt, w') /\
     find_message t (writer w') = Some m' /\
     msg_hdr m' = Some {| has_originator := false; has_hopcount := false;
                          has_hoplimit := true; has_seqno := false |} /\
     msg_hoplimit m' = Some (hoplimit (packet_data (_target w))) /\
     msg_addrs m' = msg_addrs m /\
     addMessageHeader m' = addMessageHeader m /\
     _target w' = _target w /\
     SequenceNumberCounter w' = SequenceNumberCounter w /\
     wire w' = wire w /\
     mem_packet_data w' = mem_packet_data w /\
     mem_netaddr w' = mem_netaddr w) /\
  _cb_addMessageHeader None w = Faults.
Proof.
  intros Hm. split; [|reflexivity].
  set (g1 := fun x : rfc5444_writer_message =>
               set_working
                 (Some {| has_originator := false; has_hopcount := false;
                          has_hoplimit := true; has_seqno := false |})
                 (msg_hoplimit x) (msg_addrs x) x).
  set (g2 := fun x : rfc5444_writer_message =>
               set_working (msg_hdr x)
                 (Some (hoplimit (packet_data (_target w)))) (msg_addrs x) x).
  assert (H1 : find_message t (update_message t g1 (writer w)) = Some (g1 m))
    by (apply find_message_update; [reflexivity | exact Hm]).
  assert (H2 : find_message t
                 (update_message t g2 (update_message t g1 (writer w)))
               = Some (g2 (g1 m)))
    by (apply find_message_update; [reflexivity | exact H1]).
  assert (Hderef : forall w0 m0,
            find_message t (writer w0) = Some m0 ->
            deref_message (Some t) w0 = Returns ((t, m0), w0)).
  { intros w0 m0 E. unfold deref_message. rewrite E. reflexivity. }
  do 2 eexists. split.
  - unfold _cb_addMessageHeader.
    erewrite bind_run;
      [| unfold rfc5444_writer_set_msg_header;
         erewrite bind_run by (apply Hderef; exact Hm); reflexivity ].
    erewrite bind_run by reflexivity.
    unfold rfc5444_writer_set_msg_hoplimit.
    erewrite bind_run by (apply Hderef; exact H1).
    reflexivity.
  - split; [exact H2|]. repeat split.
Qed.


(** X10: initialisation followed by a send: the packet goes, once, to the
    sender that was given to [aodvv2_packet_writer_init], with the next
    hop as destination, and the transport log records what that sender
    answered. *)
Theorem init_then_send_reaches_the_given_sender ptr w p q d a :
  providers_declared w ->
  mem_packet_data w !! p = Some d ->
  mem_netaddr w !! q = Some a ->
  (exists w' m,
     (aodvv2_packet_writer_init ptr;;
      aodvv2_packet_writer_send_rreq (Some p) (Some q)) w
       = Returns (tt, w') /\
     wm_type m = RFC5444_MSGTYPE_RREQ /\
     wire w' = wire w ++
       [{| tx_messages := [m]; tx_dest := a; tx_ok := ptr [m] a |}]) /\
  (exists w' m,
     (aodvv2_packet_writer_init ptr;;
      aodvv2_packet_writer_send_rrep (Some p) (Some q)) w
       = Returns (tt, w') /\
     wm_type m = RFC5444_MSGTYPE_RREP /\
     wire w' = wire w ++
       [{| tx_messages := [m]; tx_dest := a; tx_ok := ptr [m] a |}]).
Proof.
  intros Hdecl Hd Ha.
  destruct (init_run ptr w Hdecl)
    as (w1 & E1 & Hidle1 & Hifc & _ & _ & _ & Hm1 & Hn1 & _ & Hw1).
  rewrite <- Hm1 in Hd. rewrite <- Hn1 in Ha.
  split.
  - eexists. exists (composed_rreq d). rewrite (bind_run _ _ _ _ _ E1).
    split; [apply (send_rreq_run _ _ _ _ _ Hidle1 Hd Ha)|].
    split; [reflexivity|].
    simpl. rewrite Hifc, Hw1. reflexivity.
  - eexists. exists (composed_rrep d (SequenceNumberCounter w1)).
    rewrite (bind_run _ _ _ _ _ E1).
    split; [apply (send_rrep_run _ _ _ _ _ Hidle1 Hd Ha)|].
    split; [reflexivity|].
    simpl. rewrite Hifc, Hw1. reflexivity.
Qed.

Lemma count_rreps_Permutation rs rs' :
  rs ≡ₚ rs' -> count_rreps rs = count_rreps rs'.
Proof.
  unfold count_rreps. induction 1 as [|x l l' _ IH|x y l|l l' l'' _ IH1 _ IH2];
    simpl.
  - reflexivity.
  - destruct (is_rrep x); simpl; congruence.
  - destruct (is_rrep x), (is_rrep y); reflexivity.
  - congruence.
Qed.

Lemma omap_lookup_seq (l1 l2 : list request) :
  omap (fun i => (l1 ++ l2) !! i) (seq (length l1) (length l2)) = l2.
Proof.
  revert l1. induction l2 as [|x l2 IH]; intros l1; simpl; [reflexivity|].
  rewrite (list_lookup_middle l1 l2 x (length l1) eq_refl). simpl. f_equal.
  specialize (IH (l1 ++ [x])).
  rewrite length_app, <- app_assoc in IH. simpl in IH.
  rewrite Nat.add_1_r in IH. exact IH.
Qed.

(** When all threads have finished, the world is the one of the
    sequential sends in lock order, which is a permutation of the
    threads. *)
Lemma finished_run_is_sequential reqs w0 tr ts w :
  writer_idle w0 ->
  Forall (valid_request w0) reqs ->
  exec (start reqs, w0) tr (ts, w) ->
  Forall finished ts ->
  acquisitions tr ≡ₚ seq 0 (length reqs) /\
  send_all reqs (acquisitions tr) w0 = Returns (tt, w).
Proof.
  intros Hidle Hval Hexec Hfin.
  destruct (exec_invariant _ _ _ _ _ Hidle Hval Hexec) as [Hok Hser].
  pose proof Hok as [Hlen Hreq Hpc Hord Hids Hnd].
  assert (Hdone : forall i t, ts !! i = Some t -> th_pc t = pc_done).
  { intros i t Hi. exact (Forall_lookup_1 _ _ _ _ Hfin Hi). }
  destruct Hser as [Hout Hall Hidle'
                   | order' h th w1 Ho Hh Hcs Hout Hall Hidle' Hpre Hmu Hwire].
  2:{ exfalso. pose proof (Hdone _ _ Hh).
      unfold in_critical_section in Hcs. lia. }
  split; [|exact Hall].
  apply NoDup_Permutation; [exact Hnd | apply NoDup_seq |].
  intros i. rewrite elem_of_seq. split.
  - intros Hi. apply Hids in Hi. lia.
  - intros [_ Hi]. simpl in Hi. rewrite <- Hlen in Hi.
    destruct (lookup_lt_is_Some_2 _ _ Hi) as [t Ht].
    apply (Hord _ _ Ht). rewrite (Hdone _ _ Ht).
    unfold pc_lock, pc_done. lia.
Qed.

(** X11: however the statements of concurrent sends interleave, once all
    threads have finished the sequence-number counter has advanced by
    exactly as many steps as there are RREPs among the requests, and the
    writer is idle again. *)
Theorem concurrent_sends_advance_counter_once_per_rrep reqs w0 tr ts w :
  writer_idle w0 ->
  Forall (valid_request w0) reqs ->
  exec (start reqs, w0) tr (ts, w) ->
  Forall finished ts ->
  SequenceNumberCounter w =
    Nat.iter (count_rreps reqs) seqnum_next (SequenceNumberCounter w0) /\
  writer_idle w.
Proof.
  intros Hidle Hval Hexec Hfin.
  destruct (finished_run_is_sequential _ _ _ _ _ Hidle Hval Hexec Hfin)
    as [Hperm Hall].
  destruct (sends_counter (omap (fun i => reqs !! i) (acquisitions tr)) w0
              Hidle (omap_requests_valid _ _ _ Hval))
    as (w' & E & Hidle' & Hc & _).
  unfold send_all in Hall. rewrite Hall in E. injection E as <-.
  split; [|exact Hidle'].
  rewrite Hc. f_equal. apply count_rreps_Permutation.
  rewrite Hperm.
  pose proof (omap_lookup_seq [] reqs) as Hseq. simpl in Hseq.
  rewrite Hseq. reflexivity.
Qed.

End Properties.

(** * The sample scenario *)

(** Idleness of a concrete world, by evaluation. *)
Ltac evaluate_idle :=
  split; [split|..]; vm_compute; first [reflexivity | eexists; reflexivity].

(** C7 (defect): [aodvv2_packet_writer_init] binds the symbol
    [_cb_add_message_header] to both message kinds; the unit has no body
    for that symbol, so the RREQ and the RREP of the sample request go out
    without header flags and without a hop limit.  The function that the
    unit does define, [_cb_addMessageHeader], is bound to no message; run
    by hand on the world the RREQ leaves behind, it declares no originator,
    no hop count, a hop limit and no sequence number, and sets the hop
    limit 10 of the target. *)
Theorem header_callback_bound_without_body :
  let w := ready_world sender_ok 1 in
  map addMessageHeader (wr_messages (writer w))
    = [Some fn_cb_add_message_header; Some fn_cb_add_message_header] /\
  @header_fn_body sample_platform fn_cb_add_message_header = None /\
  (exists w' m,
     aodvv2_packet_writer_send_rreq (Some 0%nat) (Some 0%nat) w
       = Returns (tt, w') /\
     map tx_messages (wire w') = [[m]] /\
     wm_hdr m = None /\ wm_hoplimit m = None /\
     exists w'',
       _cb_addMessageHeader (Some RFC5444_MSGTYPE_RREQ) w'
         = Returns (tt, w'') /\
       msg_hdr <$> find_message RFC5444_MSGTYPE_RREQ (writer w'')
         = Some (Some {| has_originator := false; has_hopcount := false;
                         has_hoplimit := true; has_seqno := false |}) /\
       msg_hoplimit <$> find_message RFC5444_MSGTYPE_RREQ (writer w'')
         = Some (Some 10)) /\
  (exists w' m,
     aodvv2_packet_writer_send_rrep (Some 0%nat) (Some 0%nat) w
       = Returns (tt, w') /\
     map tx_messages (wire w') = [[m]] /\
     wm_hdr m = None /\ wm_hoplimit m = None).
Proof.
  cbv zeta.
  split; [reflexivity|]. split; [reflexivity|]. split.
  - do 2 eexists. split; [vm_compute; reflexivity|].
    split; [reflexivity|]. split; [reflexivity|]. split; [reflexivity|].
    eexists. split; [vm_compute; reflexivity|].
    split; reflexivity.
  - do 2 eexists. split; [vm_compute; reflexivity|].
    split; [reflexivity|]. split; reflexivity.
Qed.

(** C8, as stated, fails: with a sender that signals failure, the sender
    is called and reports failure, yet the send operations return
    normally with the unit value, exactly as they do with a sender that
    succeeds. *)
Lemma transport_failure_is_not_propagated :
  (exists w' tx,
     aodvv2_packet_writer_send_rreq (Some 0%nat) (Some 0%nat)
       (ready_world sender_failing 1) = Returns (tt, w') /\
     wire w' = [tx] /\ tx_ok tx = false) /\
  signal (aodvv2_packet_writer_send_rreq (Some 0%nat) (Some 0%nat)
            (ready_world sender_failing 1))
    = signal (aodvv2_packet_writer_send_rreq (Some 0%nat) (Some 0%nat)
                (ready_world sender_ok 1)) /\
  (exists w' tx,
     aodvv2_packet_writer_send_rrep (Some 0%nat) (Some 0%nat)
       (ready_world sender_failing 1) = Returns (tt, w') /\
     wire w' = [tx] /\ tx_ok tx = false) /\
  signal (aodvv2_packet_writer_send_rrep (Some 0%nat) (Some 0%nat)
            (ready_world sender_failing 1))
    = signal (aodvv2_packet_writer_send_rrep (Some 0%nat) (Some 0%nat)
                (ready_world sender_ok 1)).
Proof.
  split; [|split; [|split]].
  - do 2 eexists. split; [vm_compute; reflexivity|]. split; reflexivity.
  - vm_compute. reflexivity.
  - do 2 eexists. split; [vm_compute; reflexivity|]. split; reflexivity.
  - vm_compute. reflexivity.
Qed.

(** ** The properties on the sample scenario *)

Lemma seqnum_counter_advances_only_in_rrep_witness :
  writer_idle (ready_world sender_ok 7) /\
  (exists w',
     aodvv2_packet_writer_send_rreq (Some 0%nat) (Some 0%nat)
       (ready_world sender_ok 7) = Returns (tt, w') /\
     SequenceNumberCounter w' = 7) /\
  (exists w',
     aodvv2_packet_writer_send_rrep (Some 0%nat) (Some 0%nat)
       (ready_world sender_ok 7) = Returns (tt, w') /\
     SequenceNumberCounter w' = 8).
Proof.
  assert (Hidle : writer_idle (ready_world sender_ok 7)) by evaluate_idle.
  split; [exact Hidle|].
  destruct (@seqnum_counter_advances_only_in_rrep sample_platform
              (ready_world sender_ok 7) 0%nat 0%nat sample_data addr_C
              Hidle eq_refl eq_refl)
    as ((w1 & E1 & H1) & (w2 & E2 & H2 & _) & _).
  split; [exists w1 | exists w2]; split; assumption.
Defined.

Lemma rrep_target_seqnum_is_pre_increment_witness :
  writer_idle (ready_world sender_ok 7) /\
  exists (w1 w2 : @world sample_platform)
         (m1 m2 : @wire_message sample_platform) ok1 ok2,
    aodvv2_packet_writer_send_rrep (Some 0%nat) (Some 0%nat)
      (ready_world sender_ok 7) = Returns (tt, w1) /\
    aodvv2_packet_writer_send_rrep (Some 0%nat) (Some 0%nat) w1
      = Returns (tt, w2) /\
    wire w1 = [@Build_transmission sample_platform [m1] addr_C ok1] /\
    wire w2 = wire w1 ++ [@Build_transmission sample_platform [m2] addr_C ok2] /\
    tlv_values RFC5444_MSGTLV_TARGSEQNUM m1 = [7] /\
    tlv_values RFC5444_MSGTLV_TARGSEQNUM m2 = [8].
Proof.
  assert (Hidle : writer_idle (ready_world sender_ok 7)) by evaluate_idle.
  split; [exact Hidle|].
  destruct (@rrep_target_seqnum_is_pre_increment sample_platform
              (ready_world sender_ok 7) 0%nat 0%nat sample_data addr_C
              Hidle eq_refl eq_refl)
    as (w1 & w2 & m1 & m2 & ok1 & ok2 & E1 & E2 & Hw1 & Hw2 & H1 & _ & H2).
  exists w1, w2, m1, m2, ok1, ok2.
  repeat (split; [assumption|]). assumption.
Defined.

Lemma recorded_hoplimit_witness :
  0 <= @AODVV2_MAX_HOPCOUNT sample_platform <= 255 /\
  writer_idle (ready_world sender_ok 1) /\
  (exists w',
     aodvv2_packet_writer_send_rreq (Some 0%nat) (Some 0%nat)
       (ready_world sender_ok 1) = Returns (tt, w') /\
     hoplimit (packet_data (_target w')) = 10) /\
  (exists w',
     aodvv2_packet_writer_send_rrep (Some 0%nat) (Some 0%nat)
       (ready_world sender_ok 1) = Returns (tt, w') /\
     hoplimit (packet_data (_target w')) = 250).
Proof.
  assert (Hmax : 0 <= @AODVV2_MAX_HOPCOUNT sample_platform <= 255)
    by (simpl; lia).
  assert (Hidle : writer_idle (ready_world sender_ok 1)) by evaluate_idle.
  split; [exact Hmax|]. split; [exact Hidle|].
  exact (@recorded_hoplimit sample_platform (ready_world sender_ok 1)
           0%nat 0%nat sample_data addr_C Hmax Hidle eq_refl eq_refl).
Defined.

Lemma rreq_addresses_and_attributes_witness :
  writer_idle (ready_world sender_ok 1) /\
  exists (w' : @world sample_platform)
         (m : @wire_message sample_platform) ok,
    aodvv2_packet_writer_send_rreq (Some 0%nat) (Some 0%nat)
      (ready_world sender_ok 1) = Returns (tt, w') /\
    wire w' = [@Build_transmission sample_platform [m] addr_C ok] /\
    map address (wm_addrs m) = [addr_A; addr_B] /\
    map mandatory (wm_addrs m) = [true; true] /\
    tlv_values RFC5444_MSGTLV_ORIGSEQNUM m = [5] /\
    tlv_values RFC5444_MSGTLV_METRIC m = [0] /\
    tlv_values RFC5444_MSGTLV_TARGSEQNUM m = [].
Proof.
  assert (Hidle : writer_idle (ready_world sender_ok 1)) by evaluate_idle.
  split; [exact Hidle|].
  destruct (@rreq_addresses_and_attributes sample_platform
              (ready_world sender_ok 1) 0%nat 0%nat sample_data addr_C
              Hidle eq_refl eq_refl)
    as (w' & m & ok & E & Hw & _ & Ha & _).
  exists w', m, ok.
  split; [exact E|]. split; [exact Hw|].
  unfold tlv_values. rewrite Ha. repeat split; reflexivity.
Defined.

Lemma rrep_addresses_and_attributes_witness :
  writer_idle (ready_world sender_ok 7) /\
  exists (w' : @world sample_platform)
         (m : @wire_message sample_platform) ok,
    aodvv2_packet_writer_send_rrep (Some 0%nat) (Some 0%nat)
      (ready_world sender_ok 7) = Returns (tt, w') /\
    wire w' = [@Build_transmission sample_platform [m] addr_C ok] /\
    map address (wm_addrs m) = [addr_A; addr_B] /\
    map mandatory (wm_addrs m) = [true; true] /\
    tlv_values RFC5444_MSGTLV_ORIGSEQNUM m = [5] /\
    tlv_values RFC5444_MSGTLV_TARGSEQNUM m = [7] /\
    tlv_values RFC5444_MSGTLV_METRIC m = [0].
Proof.
  assert (Hidle : writer_idle (ready_world sender_ok 7)) by evaluate_idle.
  split; [exact Hidle|].
  destruct (@rrep_addresses_and_attributes sample_platform
              (ready_world sender_ok 7) 0%nat 0%nat sample_data addr_C
              Hidle eq_refl eq_refl)
    as (w' & m & ok & E & Hw & _ & Ha & _).
  exists w', m, ok.
  split; [exact E|]. split; [exact Hw|].
  unfold tlv_values. rewrite Ha. repeat split; reflexivity.
Defined.

Lemma seqnum_increment_wraps_to_one_witness :
  0 <= 7 < 65535 /\ seqnum_next 7 = 8 /\
  writer_idle (ready_world sender_ok 65535) /\
  exists w',
    aodvv2_packet_writer_send_rrep (Some 0%nat) (Some 0%nat)
      (ready_world sender_ok 65535) = Returns (tt, w') /\
    SequenceNumberCounter w' = 1.
Proof.
  assert (Hidle : writer_idle (ready_world sender_ok 65535))
    by evaluate_idle.
  destruct (@seqnum_increment_wraps_to_one sample_platform)
    as (_ & _ & Hsucc & _ & Hsend).
  split; [lia|]. split; [apply Hsucc; lia|]. split; [exact Hidle|].
  exact (Hsend (ready_world sender_ok 65535) 0%nat 0%nat sample_data addr_C
           Hidle eq_refl eq_refl eq_refl).
Defined.

Lemma transport_status_is_discarded_witness :
  writer_idle (ready_world sender_failing 1) /\
  (exists w' tx,
     aodvv2_packet_writer_send_rreq (Some 0%nat) (Some 0%nat)
       (ready_world sender_failing 1) = Returns (tt, w') /\
     wire w' = [tx] /\
     signal (aodvv2_packet_writer_send_rreq (Some 0%nat) (Some 0%nat)
               (ready_world sender_failing 1)) = Returns tt) /\
  (exists w' tx,
     aodvv2_packet_writer_send_rrep (Some 0%nat) (Some 0%nat)
       (ready_world sender_failing 1) = Returns (tt, w') /\
     wire w' = [tx] /\
     signal (aodvv2_packet_writer_send_rrep (Some 0%nat) (Some 0%nat)
               (ready_world sender_failing 1)) = Returns tt).
Proof.
  assert (Hidle : writer_idle (ready_world sender_failing 1))
    by evaluate_idle.
  split; [exact Hidle|].
  exact (@transport_status_is_discarded sample_platform
           (ready_world sender_failing 1) 0%nat 0%nat sample_data addr_C
           Hidle eq_refl eq_refl).
Defined.

Lemma sends_leave_caller_data_unchanged_witness :
  writer_idle (ready_world sender_ok 1) /\
  (exists w',
     aodvv2_packet_writer_send_rreq (Some 0%nat) (Some 0%nat)
       (ready_world sender_ok 1) = Returns (tt, w') /\
     mem_packet_data w' !! 0%nat = Some sample_data /\
     mem_netaddr w' !! 0%nat = Some addr_C) /\
  (exists w',
     aodvv2_packet_writer_send_rrep (Some 0%nat) (Some 0%nat)
       (ready_world sender_ok 1) = Returns (tt, w') /\
     mem_packet_data w' !! 0%nat = Some sample_data /\
     mem_netaddr w' !! 0%nat = Some addr_C).
Proof.
  assert (Hidle : writer_idle (ready_world sender_ok 1)) by evaluate_idle.
  split; [exact Hidle|].
  destruct (@sends_leave_caller_data_unchanged sample_platform)
    as (_ & _ & _ & _ & Hsend).
  exact (Hsend (ready_world sender_ok 1) 0%nat 0%nat sample_data addr_C
           Hidle eq_refl eq_refl).
Defined.

Lemma concurrent_sends_are_serialised_witness :
  exists tr ts w,
    exec (start sample_requests, ready_world sender_ok 1) tr (ts, w) /\
    Forall finished ts /\
    acquisitions tr = [1; 0]%nat /\
    send_all sample_requests [1; 0]%nat (ready_world sender_ok 1)
      = Returns (tt, w) /\
    length (wire w) = 2%nat.
Proof.
  assert (Hidle : writer_idle (ready_world sender_ok 1)) by evaluate_idle.
  assert (Hval : Forall (valid_request (ready_world sender_ok 1))
                   sample_requests).
  { repeat constructor;
      exists 0%nat, 0%nat, sample_data, addr_C; repeat split; reflexivity. }
  assert (Hrun : exists tr ts w,
            run_schedule sample_schedule []
              (start sample_requests, ready_world sender_ok 1)
              = Some (tr, (ts, w)) /\
            Forall finished ts /\ acquisitions tr = [1; 0]%nat).
  { vm_compute. do 3 eexists. split; [reflexivity|].
    split; [repeat (constructor; try reflexivity) | reflexivity]. }
  destruct Hrun as (tr & ts & w & Erun & Hfin & Hacq).
  pose proof (run_schedule_exec _ _ _ _ _ _ (exec_nil _) Erun) as Hexec.
  destruct (@concurrent_sends_are_serialised sample_platform
              sample_requests (ready_world sender_ok 1) tr ts w
              Hidle Hval Hexec)
    as (_ & _ & _ & Hall & _).
  destruct (Hall Hfin) as (_ & Hsend & Hlen).
  exists tr, ts, w. rewrite Hacq in Hsend.
  repeat (split; [assumption|]). exact Hlen.
Defined.

(** ** The further properties on the sample scenario *)

Lemma init_leaves_writer_idle_witness :
  providers_declared (boot_world 1) /\
  exists w' : @world sample_platform,
    aodvv2_packet_writer_init sender_ok (boot_world 1) = Returns (tt, w') /\
    writer_idle w' /\
    wire w' = [] /\ SequenceNumberCounter w' = 1.
Proof.
  assert (Hdecl : providers_declared (boot_world 1))
    by (repeat split; reflexivity).
  split; [exact Hdecl|].
  destruct (@init_leaves_writer_idle sample_platform sender_ok
              (boot_world 1) Hdecl)
    as (w' & E & Hidle & _ & _ & _ & _ & _ & _ & Hc & Hw).
  exists w'. repeat (split; [assumption|]). exact Hc.
Defined.

Lemma null_argument_aborts_send_witness :
  aodvv2_packet_writer_send_rreq None (Some 0%nat) (ready_world sender_ok 1)
    = Aborts /\
  aodvv2_packet_writer_send_rrep None (Some 0%nat) (ready_world sender_ok 1)
    = Aborts.
Proof.
  apply (@null_argument_aborts_send sample_platform None (Some 0%nat)
           (ready_world sender_ok 1)).
  left. reflexivity.
Defined.

Lemma held_mutex_blocks_send_witness :
  aodvv2_packet_writer_send_rreq (Some 0%nat) (Some 0%nat)
    (set_writer_mutex MUTEX_LOCKED (ready_world sender_ok 1)) = Blocks /\
  aodvv2_packet_writer_send_rrep (Some 0%nat) (Some 0%nat)
    (set_writer_mutex MUTEX_LOCKED (ready_world sender_ok 1)) = Blocks.
Proof.
  apply (@held_mutex_blocks_send sample_platform 0%nat 0%nat
           (set_writer_mutex MUTEX_LOCKED (ready_world sender_ok 1))).
  reflexivity.
Defined.

Lemma send_leaves_writer_idle_witness :
  writer_idle (ready_world sender_ok 1) /\
  (exists w' : @world sample_platform,
     aodvv2_packet_writer_send_rreq (Some 0%nat) (Some 0%nat)
       (ready_world sender_ok 1) = Returns (tt, w') /\
     writer_idle w' /\
     packet_data (_target w') = sample_data /\
     target_addr (_target w') = addr_C) /\
  (exists w' : @world sample_platform,
     aodvv2_packet_writer_send_rrep (Some 0%nat) (Some 0%nat)
       (ready_world sender_ok 1) = Returns (tt, w') /\
     writer_idle w' /\
     hoplimit (packet_data (_target w')) = 250 /\
     target_addr (_target w') = addr_C).
Proof.
  assert (Hidle : writer_idle (ready_world sender_ok 1)) by evaluate_idle.
  split; [exact Hidle|].
  destruct (@send_leaves_writer_idle sample_platform
              (ready_world sender_ok 1) 0%nat 0%nat sample_data addr_C
              Hidle eq_refl eq_refl)
    as ((w1 & E1 & Hi1 & Ht1) & (w2 & E2 & Hi2 & Ht2)).
  split.
  - exists w1. split; [exact E1|]. split; [exact Hi1|].
    rewrite Ht1. split; reflexivity.
  - exists w2. split; [exact E2|]. split; [exact Hi2|].
    rewrite Ht2. split; reflexivity.
Defined.

Lemma sample_requests_valid :
  Forall (valid_request (ready_world sender_ok 7)) sample_requests.
Proof.
  repeat constructor;
    exists 0%nat, 0%nat, sample_data, addr_C; repeat split; reflexivity.
Qed.

Lemma counter_advances_once_per_rrep_witness :
  writer_idle (ready_world sender_ok 7) /\
  exists w' : @world sample_platform,
    for_each sample_requests send (ready_world sender_ok 7)
      = Returns (tt, w') /\
    SequenceNumberCounter w' = 8 /\
    length (wire w') = 2%nat.
Proof.
  assert (Hidle : writer_idle (ready_world sender_ok 7)) by evaluate_idle.
  split; [exact Hidle|].
  destruct (@counter_advances_once_per_rrep sample_platform sample_requests
              (ready_world sender_ok 7) Hidle sample_requests_valid)
    as (w' & E & _ & Hc & Hl).
  exists w'. split; [exact E|]. split; [exact Hc | exact Hl].
Defined.

Lemma rrep_counter_cycles_witness :
  writer_idle (ready_world sender_ok 65534) /\
  1 <= SequenceNumberCounter (ready_world sender_ok 65534) <= 65535 /\
  exists w' : @world sample_platform,
    for_each
      (replicate 3 {| req_kind := SEND_RREP; req_packet_data := Some 0%nat;
                      req_next_hop := Some 0%nat |})
      send (ready_world sender_ok 65534) = Returns (tt, w') /\
    SequenceNumberCounter w' = 2.
Proof.
  assert (Hidle : writer_idle (ready_world sender_ok 65534))
    by evaluate_idle.
  assert (Hs : 1 <= SequenceNumberCounter (ready_world sender_ok 65534)
                 <= 65535) by (vm_compute; split; discriminate).
  split; [exact Hidle|]. split; [exact Hs|].
  destruct (@rrep_counter_cycles sample_platform 3
              {| req_kind := SEND_RREP; req_packet_data := Some 0%nat;
                 req_next_hop := Some 0%nat |}
              (ready_world sender_ok 65534) Hidle)
    as (w' & E & Hc & _); [| reflexivity | exact Hs |].
  { exists 0%nat, 0%nat, sample_data, addr_C. repeat split; reflexivity. }
  exists w'. split; [exact E | exact Hc].
Defined.

Lemma address_callbacks_write_only_the_message_witness :
  exists w' : @world sample_platform,
    _cb_rrep_add_addresses (ready_world sender_ok 7) = Returns (tt, w') /\
    _target w' = _target (ready_world sender_ok 7) /\
    wire w' = wire (ready_world sender_ok 7) /\
    SequenceNumberCounter w' = 8.
Proof.
  destruct (@address_callbacks_write_only_the_message sample_platform
              fn_cb_rrep_add_addresses)
    as (Ht & _ & Hw & _ & _ & _ & _ & _ & _ & _ & Hc).
  simpl in Ht, Hw, Hc.
  destruct (_cb_rrep_add_addresses (ready_world sender_ok 7))
    as [[[] w']| | |] eqn:E; try (vm_compute in E; discriminate).
  exists w'. split; [reflexivity|].
  split; [exact (Ht _ _ _ E)|]. split; [exact (Hw _ _ _ E)|].
  rewrite (Hc _ _ _ E). reflexivity.
Defined.

Lemma cb_addMessageHeader_sets_flags_and_hoplimit_witness :
  find_message RFC5444_MSGTYPE_RREP (writer (ready_world sender_ok 1))
    = Some (registered_message RFC5444_MSGTYPE_RREP) /\
  exists (w' : @world sample_platform) m',
    _cb_addMessageHeader (Some RFC5444_MSGTYPE_RREP)
      (ready_world sender_ok 1) = Returns (tt, w') /\
    find_message RFC5444_MSGTYPE_RREP (writer w') = Some m' /\
    msg_hdr m' = Some {| has_originator := false; has_hopcount := false;
                         has_hoplimit := true; has_seqno := false |} /\
    msg_hoplimit m' = Some 0.
Proof.
  assert (Hm : find_message RFC5444_MSGTYPE_RREP
                 (writer (ready_world sender_ok 1))
               = Some (registered_message RFC5444_MSGTYPE_RREP))
    by reflexivity.
  split; [exact Hm|].
  destruct (@cb_addMessageHeader_sets_flags_and_hoplimit sample_platform
              (ready_world sender_ok 1) RFC5444_MSGTYPE_RREP _ Hm)
    as ((w' & m' & E & Hf & Hh & Hl & _) & _).
  exists w', m'. repeat (split; [assumption|]). exact Hl.
Defined.


Lemma init_then_send_reaches_the_given_sender_witness :
  providers_declared (boot_world 1) /\
  exists (w' : @world sample_platform) m,
    (aodvv2_packet_writer_init sender_failing;;
     aodvv2_packet_writer_send_rreq (Some 0%nat) (Some 0%nat)) (boot_world 1)
      = Returns (tt, w') /\
    wire w' = [@Build_transmission sample_platform [m] addr_C false].
Proof.
  assert (Hdecl : providers_declared (boot_world 1))
    by (repeat split; reflexivity).
  split; [exact Hdecl|].
  destruct (@init_then_send_reaches_the_given_sender sample_platform
              sender_failing (boot_world 1) 0%nat 0%nat sample_data addr_C
              Hdecl eq_refl eq_refl)
    as ((w' & m & E & _ & Hw) & _).
  exists w', m. split; [exact E | exact Hw].
Defined.

Lemma concurrent_sends_advance_counter_once_per_rrep_witness :
  exists tr ts (w : @world sample_platform),
    exec (start sample_requests, ready_world sender_ok 7) tr (ts, w) /\
    Forall finished ts /\
    SequenceNumberCounter w = 8.
Proof.
  assert (Hidle : writer_idle (ready_world sender_ok 7)) by evaluate_idle.
  assert (Hrun : exists tr ts w,
            run_schedule sample_schedule []
              (start sample_requests, ready_world sender_ok 7)
              = Some (tr, (ts, w)) /\
            Forall finished ts).
  { vm_compute. do 3 eexists. split; [reflexivity|].
    repeat (constructor; try reflexivity). }
  destruct Hrun as (tr & ts & w & Erun & Hfin).
  pose proof (run_schedule_exec _ _ _ _ _ _ (exec_nil _) Erun) as Hexec.
  destruct (@concurrent_sends_advance_counter_once_per_rrep sample_platform
              sample_requests (ready_world sender_ok 7) tr ts w
              Hidle sample_requests_valid Hexec Hfin)
    as (Hc & _).
  exists tr, ts, w. split; [exact Hexec|]. split; [exact Hfin | exact Hc].
Defined.
